(** * key_file_cleaner: a shallow embedding and its verified properties

    The development follows [key_file_cleaner.py]: the line filter
    [line_to_keep], the key file rewriter [process_file] and the tree walker
    [remove_lines_in_files], over an explicit model of the host (files,
    directory listings, log, console).

    A Python [str] is a [string]: each character is read as a code point
    below 256.  A value that may be [None] is an [option]. *)

From Stdlib Require Import Strings.String Strings.Ascii Strings.Byte NArith ZArith Bool List Lia.
From stdpp Require Import base option list gmap strings.

Local Open Scope string_scope.
Local Open Scope list_scope.

(** Let [simpl] compute the append of a string that starts with a known
    character. *)
#[local] Arguments String.append !s1 s2 : simpl nomatch.

(** ** Python strings *)

Module Str.

(** [s.startswith(prefix)] for one prefix. *)
Fixpoint startswith (s prefix : string) {struct prefix} : bool :=
  match prefix with
  | EmptyString => true
  | String p prefix' =>
      match s with
      | EmptyString => false
      | String c s' => Ascii.eqb c p && startswith s' prefix'
      end
  end.

(** [s.endswith(suffix)] for one suffix: some tail of [s] is [suffix]. *)
Fixpoint endswith (s suffix : string) : bool :=
  String.eqb s suffix ||
  match s with
  | EmptyString => false
  | String _ s' => endswith s' suffix
  end.

(** [s.startswith(tuple)] and [s.endswith(tuple)]: any member matches. *)
Definition startswith_any (s : string) (prefixes : list string) : bool :=
  existsb (startswith s) prefixes.

Definition endswith_any (s : string) (suffixes : list string) : bool :=
  existsb (endswith s) suffixes.

(** [str.lower] on one code point below 256: the upper-case letters are
    A-Z (65-90) and the Latin-1 capitals 192-222 without the multiplication
    sign 215; each maps 32 code points up. *)
Definition lower_char (c : ascii) : ascii :=
  let n := N_of_ascii c in
  if ((65 <=? n) && (n <=? 90) || (192 <=? n) && (n <=? 222) && negb (n =? 215))%N
  then ascii_of_N (n + 32)
  else c.

Fixpoint lower (s : string) : string :=
  match s with
  | EmptyString => EmptyString
  | String c s' => String (lower_char c) (lower s')
  end.

End Str.

(** ** Exceptions and results *)

Inductive exn : Type :=
| TypeError (msg : string)
| ValueError (msg : string)
| FileNotFoundError (msg : string)
| PermissionError (path : string)
| IsADirectoryError (path : string)
| UnicodeDecodeError (path : string).

Inductive result (A : Type) : Type :=
| Ok (a : A)
| Raise (e : exn).
Arguments Ok {A} a.
Arguments Raise {A} e.

(** ** Line filter *)

(** [line_to_keep], lines 16-40. *)
Definition line_to_keep (line : option string) : result bool :=
  match line with
  | None => Raise (TypeError "line is None")
  | Some line => Ok (negb (Str.startswith line "$"))
  end.

(** What [line_to_keep] answers on a line that is present, line 40. *)
Definition kept (line : string) : bool := negb (Str.startswith line "$").

(** ** Junk classification and the key-file test *)

(** Lines 119-122 of [remove_lines_in_files]. *)
Definition file_extensions_to_remove : list string :=
  [".ansa"; ".hm"; ".mvw"; ".catpart"; ".cfile"].

Definition file_starts_to_remove (remove_d3p : bool) : list string :=
  let starts :=
    ["._"; "ansa"; ".lock"; "d3d"; "d3f"; "lsrun"; ".lock"; "mess"; "d3h"; "lspost"] in
  if remove_d3p then starts ++ ["d3p"] else starts.

(** The condition of line 129. *)
Definition is_junk (file : string) (remove_d3p : bool) : bool :=
  Str.endswith_any (Str.lower file) file_extensions_to_remove ||
  Str.startswith_any (Str.lower file) (file_starts_to_remove remove_d3p).

(** The condition of line 137. *)
Definition is_key_file (file : string) : bool :=
  Str.endswith_any file [".key"; ".k"].

(** The branch of the [if]/[elif] of lines 129-142 a file name takes. *)
Inductive action : Type := Delete | Rewrite | Untouched.

Definition classify (file : string) (remove_d3p : bool) : action :=
  if is_junk file remove_d3p then Delete
  else if is_key_file file then Rewrite
  else Untouched.

(** The sets as the specification lists them. *)
Definition spec_extensions : list string :=
  [".ansa"; ".hm"; ".mvw"; ".catpart"; ".cfile"].

Definition spec_prefixes (flag : bool) : list string :=
  ["._"; "ansa"; ".lock"; "d3d"; "d3f"; "lsrun"; "mess"; "d3h"; "lspost"]
  ++ (if flag then ["d3p"] else []).

(** ** The host

    A regular file has its bytes and what the host allows on it.  [dirs]
    maps a directory to what [os.walk] yields for it: every directory below
    it, top-down, with the names of its files.  [dirs] is that record of the
    walk and not the directory itself: a name stays listed when its file is
    removed, and no statement below speaks of the directory through it.  A
    name listed there with no entry in [files] is a file that went away
    after its directory was listed.

    The host has no links: every path names a file of its own, so writing
    or removing one path is not seen through another, and the log is kept
    apart from the files.  What a write or a removal does to the other
    names of a linked file is outside this model. *)

Record file_node : Type := FileNode {
  data : list byte;
  readable : bool;
  writable : bool;
  removable : bool
}.

(** The records handed to [logging], by the call that writes them. *)
Inductive message : Type :=
| ProcessedFile (file_path : string) (count : Z)          (* line 82 *)
| ErrorDecoding (file_path : string) (e : exn)            (* line 84 *)
| UnhandledProcessing (file_path : string) (e : exn)      (* lines 86, 141 *)
| RemovedFile (file_path : string) (files_removed : Z)    (* line 133 *)
| FailedToRemove (file_path : string) (e : exn).          (* line 135 *)

Inductive level : Type := INFO | ERROR.

Record host : Type := Host {
  files : gmap string file_node;
  dirs : gmap string (list (string * list string));
  log : list (level * message);
  stdout : list string
}.

Definition set_files (fs : gmap string file_node) (h : host) : host :=
  {| files := fs; dirs := dirs h; log := log h; stdout := stdout h |}.

Definition add_log (r : level * message) (h : host) : host :=
  {| files := files h; dirs := dirs h; log := log h ++ [r]; stdout := stdout h |}.

Definition add_stdout (s : string) (h : host) : host :=
  {| files := files h; dirs := dirs h; log := log h; stdout := stdout h ++ [s] |}.

(** ** Computations: host state with exceptions *)

Definition M (A : Type) : Type := host -> result A * host.

Definition ret {A} (a : A) : M A := fun h => (Ok a, h).

Definition raise {A} (e : exn) : M A := fun h => (Raise e, h).

Definition bind {A B} (m : M A) (k : A -> M B) : M B :=
  fun h =>
    match m h with
    | (Ok a, h') => k a h'
    | (Raise e, h') => (Raise e, h')
    end.

(** [try: m except Exception as e: handler e]. *)
Definition try_except {A} (m : M A) (handler : exn -> M A) : M A :=
  fun h =>
    match m h with
    | (Ok a, h') => (Ok a, h')
    | (Raise e, h') => handler e h'
    end.

Definition lift {A} (r : result A) : M A := fun h => (r, h).

#[global] Instance M_ret : MRet M := @ret.
#[global] Instance M_bind : MBind M := fun A B k m => bind m k.

(** ** The operating system and the logger *)

Definition path_exists (h : host) (path : string) : bool :=
  match path with
  | EmptyString => false
  | _ => bool_decide (is_Some (files h !! path)) || bool_decide (is_Some (dirs h !! path))
  end.

Definition path_isdir (h : host) (path : string) : bool :=
  match path with
  | EmptyString => false
  | _ => bool_decide (is_Some (dirs h !! path))
  end.

Definition os_path_exists (path : string) : M bool :=
  fun h => (Ok (path_exists h path), h).

Definition os_path_isdir (path : string) : M bool :=
  fun h => (Ok (path_isdir h path), h).

(** [os.path.join] of two components on a POSIX host. *)
Definition os_path_join (root file : string) : string :=
  if Str.startswith file "/" then file
  else if String.eqb root EmptyString || Str.endswith root "/" then root +:+ file
  else root +:+ "/" +:+ file.

(** [os.walk(directory)], as the list of its [(root, files)]; a path that is
    no directory yields nothing. *)
Definition os_walk (directory : string) : M (list (string * list string)) :=
  fun h => (Ok (default [] (dirs h !! directory)), h).

(** What opening or removing a path that is no regular file raises. *)
Definition no_file_error (h : host) (path : string) : exn :=
  if path_isdir h path then IsADirectoryError path
  else FileNotFoundError path.

Definition os_remove (path : string) : M unit :=
  fun h =>
    match files h !! path with
    | Some f =>
        if removable f then (Ok tt, set_files (delete path (files h)) h)
        else (Raise (PermissionError path), h)
    | None => (Raise (no_file_error h path), h)
    end.

Definition logging_info (m : message) : M unit :=
  fun h => (Ok tt, add_log (INFO, m) h).

Definition logging_error (m : message) : M unit :=
  fun h => (Ok tt, add_log (ERROR, m) h).

Definition print (s : string) : M unit :=
  fun h => (Ok tt, add_stdout s h).

(** ** Text files *)

Definition newline : ascii := ascii_of_N 10.

(** [file.readlines()] on a text: the lines with their terminator, the last
    one possibly without. *)
Fixpoint readlines (text : string) : list string :=
  match text with
  | EmptyString => []
  | String c text' =>
      if Ascii.eqb c newline then String c EmptyString :: readlines text'
      else
        match readlines text' with
        | [] => [String c EmptyString]
        | line :: lines => String c line :: lines
        end
  end.

(** [file.writelines(lines)] writes the lines one after another. *)
Definition joined (lines : list string) : string :=
  fold_right String.append EmptyString lines.

(** ** The program *)

Section Program.

(** The host's text layer.  [decode bytes] is the text that a file opened
    with [open(path, 'r')] delivers (the host's default encoding, newlines
    translated), [None] when the bytes do not decode.  [encode text] is what
    [open(path, 'w', encoding='utf-8')] stores for [text]. *)
Variable decode : list byte -> option string.
Variable encode : string -> list byte.

(** [with open(path, 'r') as file: file.readlines()], line 74-75. *)
Definition open_readlines (path : string) : M (list string) :=
  fun h =>
    match files h !! path with
    | Some f =>
        if readable f then
          match decode (data f) with
          | Some text => (Ok (readlines text), h)
          | None => (Raise (UnicodeDecodeError path), h)
          end
        else (Raise (PermissionError path), h)
    | None => (Raise (no_file_error h path), h)
    end.

(** [with open(path, 'w', encoding='utf-8') as file: file.writelines(lines)],
    lines 79-80.  A path with no file gets a new one; the rewriter never
    comes here with such a path. *)
Definition open_writelines (path : string) (lines : list string) : M unit :=
  fun h =>
    match files h !! path with
    | Some f =>
        if writable f then
          (Ok tt,
           set_files
             (<[path := FileNode (encode (joined lines)) (readable f) (writable f) (removable f)]>
                (files h)) h)
        else (Raise (PermissionError path), h)
    | None =>
        if path_isdir h path then (Raise (IsADirectoryError path), h)
        else
          (Ok tt,
           set_files (<[path := FileNode (encode (joined lines)) true true true]> (files h)) h)
    end.

(** [[line for line in lines if line_to_keep(line)]], line 77. *)
Fixpoint kept_lines (lines : list string) : M (list string) :=
  match lines with
  | [] => mret []
  | line :: lines' =>
      keep ← lift (line_to_keep (Some line));
      new_lines ← kept_lines lines';
      mret (if keep : bool then line :: new_lines else new_lines)
  end.

(** [process_file], lines 44-87. *)
Definition process_file (file_path : option string) : M unit :=
  match file_path with
  | None => raise (ValueError "file_path is None or empty")
  | Some file_path =>
      if String.eqb file_path EmptyString then raise (ValueError "file_path is None or empty")
      else
        found ← os_path_exists file_path;
        if negb found then raise (FileNotFoundError ("File not found: " +:+ file_path))
        else
          try_except
            (lines ← open_readlines file_path;
             let count := Z.of_nat (length lines) in
             new_lines ← kept_lines lines;
             let count := (count - Z.of_nat (length new_lines))%Z in
             open_writelines file_path new_lines;;
             logging_info (ProcessedFile file_path count))
            (fun e =>
               match e with
               | UnicodeDecodeError _ => logging_error (ErrorDecoding file_path e)
               | _ => logging_error (UnhandledProcessing file_path e)
               end)
  end.

(** The body of the inner loop, lines 126-142, for one file name; it yields
    the new value of [files_removed].  A name that [os.walk] lists is a
    [str], so the test of line 126 never fires. *)
Definition visit_file (remove_d3p : bool) (root file : string) (files_removed : Z) : M Z :=
  let file_path := os_path_join root file in
  if is_junk file remove_d3p then
    try_except
      (os_remove file_path;;
       let files_removed := (files_removed + 1)%Z in
       logging_info (RemovedFile file_path files_removed);;
       mret files_removed)
      (fun e =>
         logging_error (FailedToRemove file_path e);;
         mret files_removed)
  else if is_key_file file then
    try_except
      (process_file (Some file_path);;
       mret files_removed)
      (fun e =>
         logging_error (UnhandledProcessing file_path e);;
         raise e)
  else mret files_removed.

(** [for file in files], line 125. *)
Fixpoint visit_files (remove_d3p : bool) (root : string) (names : list string)
    (files_removed : Z) : M Z :=
  match names with
  | [] => mret files_removed
  | file :: names' =>
      files_removed ← visit_file remove_d3p root file files_removed;
      visit_files remove_d3p root names' files_removed
  end.

(** [for root, dirs, files in os.walk(directory)], line 124. *)
Fixpoint visit_dirs (remove_d3p : bool) (walk : list (string * list string))
    (files_removed : Z) : M Z :=
  match walk with
  | [] => mret files_removed
  | (root, names) :: walk' =>
      files_removed ← visit_files remove_d3p root names files_removed;
      visit_dirs remove_d3p walk' files_removed
  end.

(** [remove_lines_in_files], lines 90-143. *)
Definition remove_lines_in_files (directory : option string) (remove_d3p : bool) : M unit :=
  match directory with
  | None => raise (TypeError "directory is None")
  | Some directory =>
      isdir ← os_path_isdir directory;
      if negb isdir then
        raise (FileNotFoundError ("directory " +:+ directory +:+ " is not a valid directory"))
      else
        walk ← os_walk directory;
        visit_dirs remove_d3p walk 0%Z;;
        print "All .key files have been processed."
  end.

End Program.

(** ** Two concrete hosts

    Both are POSIX hosts: the line separator is the newline, so writing
    translates nothing.  Reading translates a carriage return, alone or
    before a newline, to a newline. *)

Definition carriage_return : ascii := ascii_of_N 13.

Fixpoint universal_newlines (s : string) : string :=
  match s with
  | EmptyString => EmptyString
  | String c s' =>
      if Ascii.eqb c carriage_return then
        match s' with
        | EmptyString => String newline EmptyString
        | String c' _ =>
            if Ascii.eqb c' newline then universal_newlines s'
            else String newline (universal_newlines s')
        end
      else String c (universal_newlines s')
  end.

(** Default encoding ISO-8859-1: byte [n] is code point [n]. *)
Definition latin1_decode (bytes : list byte) : option string :=
  Some (universal_newlines (string_of_list_byte bytes)).

(** Default encoding ASCII: a byte above 127 does not decode. *)
Definition ascii_decode (bytes : list byte) : option string :=
  if forallb (fun b => (Byte.to_N b <? 128)%N) bytes
  then Some (universal_newlines (string_of_list_byte bytes))
  else None.

(** UTF-8 of a code point below 256: itself below 128, two bytes above. *)
Definition utf8_char (c : ascii) : list byte :=
  let n := N_of_ascii c in
  if (n <? 128)%N then [byte_of_ascii c]
  else [byte_of_ascii (ascii_of_N (192 + n / 64));
        byte_of_ascii (ascii_of_N (128 + n mod 64))].

Fixpoint utf8_encode (text : string) : list byte :=
  match text with
  | EmptyString => []
  | String c text' => utf8_char c ++ utf8_encode text'
  end.

(** ** Vocabulary of the specification *)

(** The specification's [InvalidArgument] and [NotFound]/[NotADirectory]. *)
Definition invalid_argument (e : exn) : bool :=
  match e with
  | TypeError _ | ValueError _ => true
  | _ => false
  end.

Definition not_found (e : exn) : bool :=
  match e with
  | FileNotFoundError _ => true
  | _ => false
  end.

(** The line filter as the specification words it: keep a line that is
    non-empty and whose first character is not the sentinel. *)
Definition spec_keep (line : string) : bool :=
  match line with
  | EmptyString => false
  | String c _ => negb (Ascii.eqb c "$")
  end.

(** A line as [readlines] delivers it: a body without newline, then a
    newline; the last line of a text may lack the newline but is then not
    empty. *)
Fixpoint no_newline (s : string) : bool :=
  match s with
  | EmptyString => true
  | String c s' => negb (Ascii.eqb c newline) && no_newline s'
  end.

Inductive text_lines : list string -> Prop :=
| text_lines_nil : text_lines []
| text_lines_last (body : string) (c : ascii) :
    no_newline (String c body) = true -> text_lines [String c body]
| text_lines_cons (body : string) (lines : list string) :
    no_newline body = true -> text_lines lines ->
    text_lines ((body +:+ String newline EmptyString) :: lines).

(** The content of a file of the host, and the host a computation leaves. *)
Definition content (h : host) (path : string) : option (list byte) :=
  data <$> files h !! path.

Definition after {A} (m : M A) (h : host) : host := snd (m h).

(** The host that a successful rewrite of [path], holding [f] with the lines
    [lines], leaves: the kept lines written, the count of the others logged. *)
Definition rewritten (encode : string -> list byte) (path : string) (f : file_node)
    (lines : list string) (h : host) : host :=
  add_log
    (INFO, ProcessedFile path
             (Z.of_nat (length lines) - Z.of_nat (length (List.filter kept lines))))
    (set_files
       (<[path := FileNode (encode (joined (List.filter kept lines)))
                    (readable f) (writable f) (removable f)]> (files h)) h).

(** ** Example hosts *)

Definition nl : string := String newline EmptyString.

Definition deck_text : string :=
  "$comment" +:+ nl +:+ "NODE 1 2 3" +:+ nl +:+ "$another" +:+ nl.

(** A work directory: a deck, a key file that is not ASCII, a junk file that
    the host refuses to remove, and a listed key file that is gone. *)
Definition work_host : host :=
  {| files :=
       {[ "/w/deck.k" := FileNode (list_byte_of_string deck_text) true true true;
          "/w/bad.key" := FileNode [xff; x0a] true true true;
          "/w/model.ansa" := FileNode [] true true false;
          "/w/readme.txt" := FileNode [x68; x69] true true true ]};
     dirs := {[ "/w" := [("/w", ["model.ansa"; "readme.txt"; "deck.k"; "gone.k"; "bad.key"])] ]};
     log := [];
     stdout := [] |}.

(** A key file with the single line "caf", byte 233, newline: the word
    with an accented last letter in ISO-8859-1 (and in cp1252). *)
Definition cafe_host : host :=
  {| files := {[ "/w/cafe.k" := FileNode [x63; x61; x66; xe9; x0a] true true true ]};
     dirs := {[ "/w" := [("/w", ["cafe.k"])] ]};
     log := [];
     stdout := [] |}.


(** A deck whose name is junk by its prefix and a key file by its suffix. *)
Definition overlap_host : host :=
  {| files := {[ "/o/mess.key" := FileNode (list_byte_of_string deck_text) true true true ]};
     dirs := {[ "/o" := [("/o", ["mess.key"])] ]};
     log := [];
     stdout := [] |}.

(** ** The text a rewrite stores

    Lines 75-80 on the text of a file: split into lines, keep the lines
    that [line_to_keep] keeps, write them one after another. *)
Definition rewrite_text (text : string) : string :=
  joined (List.filter kept (readlines text)).

(** The names of a listing that the walker acts on: those it would remove
    or hand to the rewriter. *)
Definition acted_on (remove_d3p : bool) (file : string) : bool :=
  is_junk file remove_d3p || is_key_file file.

(** ** The helpers [read_file] and [write_file]

    Their records go to the same logger, with texts of their own; a
    computation here yields them beside its result. *)

Inductive encoding : Type := utf_8 | gbk | gb2312 | gb18030 | latin1.

(** Line 178. *)
Definition encodings : list encoding := [utf_8; gbk; gb2312; gb18030; latin1].

Inductive helper_record : Type :=
| WarnReplaced (file_path : string)           (* line 190, warning *)
| ErrorRead (file_path : string) (e : exn)    (* line 193, error *)
| ErrorWrite (file_path : string) (e : exn).  (* line 201, error *)

Section Helpers.

(** [decode_as enc bytes] is the text that [open(path, 'r', encoding=enc)]
    delivers, [None] when the bytes do not decode; [decode_replace] is the
    UTF-8 reading with [errors='replace'], which always delivers;
    [encode] is as for the rewriter. *)
Variable decode_as : encoding -> list byte -> option string.
Variable decode_replace : list byte -> string.
Variable encode : string -> list byte.

(** [with open(path, 'r', encoding=...) as file: file.read()]. *)
Definition open_read (decode : list byte -> option string) (path : string) (h : host) :
    result string :=
  match files h !! path with
  | Some f =>
      if readable f then
        match decode (data f) with
        | Some text => Ok text
        | None => Raise (UnicodeDecodeError path)
        end
      else Raise (PermissionError path)
  | None => Raise (no_file_error h path)
  end.

(** The loop of lines 180-185: [Some r] when an iteration returns or lets
    an exception out, [None] when every encoding failed to decode. *)
Fixpoint try_encodings (encs : list encoding) (file_path : string) (h : host) :
    option (result string) :=
  match encs with
  | [] => None
  | enc :: encs' =>
      match open_read (decode_as enc) file_path h with
      | Raise (UnicodeDecodeError _) => try_encodings encs' file_path h
      | r => Some r
      end
  end.

(** [read_file], lines 177-194. *)
Definition read_file (file_path : string) (h : host) : result string * list helper_record :=
  match try_encodings encodings file_path h with
  | Some r => (r, [])
  | None =>
      match files h !! file_path with
      | Some f =>
          if readable f then (Ok (decode_replace (data f)), [WarnReplaced file_path])
          else (Ok EmptyString, [ErrorRead file_path (PermissionError file_path)])
      | None => (Ok EmptyString, [ErrorRead file_path (no_file_error h file_path)])
      end
  end.

(** [with open(path, 'w', encoding='utf-8') as file: file.write(content)].
    A path with no file gets a new one: the host does not record whether
    the directory of a new path exists.  A write that fails once the file
    is open, and so already emptied, is outside this model. *)
Definition open_write (path content : string) : M unit :=
  fun h =>
    match files h !! path with
    | Some f =>
        if writable f then
          (Ok tt,
           set_files
             (<[path := FileNode (encode content) (readable f) (writable f) (removable f)]>
                (files h)) h)
        else (Raise (PermissionError path), h)
    | None =>
        if path_isdir h path then (Raise (IsADirectoryError path), h)
        else (Ok tt, set_files (<[path := FileNode (encode content) true true true]> (files h)) h)
    end.

(** [write_file], lines 196-201: it returns nothing and lets no exception
    out. *)
Definition write_file (file_path content : string) (h : host) : host * list helper_record :=
  match open_write file_path content h with
  | (Ok _, h') => (h', [])
  | (Raise e, h') => (h', [ErrorWrite file_path e])
  end.

End Helpers.

(** ** What a pass keeps

    The records of line 133 in a log; a path whose file is gone or cannot
    be removed; and what every step of the walk keeps between the host
    [h] with count [n] before it and the outcome [r] with host [h'] after
    it. *)
Definition is_removed_record (r : level * message) : bool :=
  match snd r with
  | RemovedFile _ _ => true
  | _ => false
  end.

Definition removed_records (l : list (level * message)) : nat :=
  length (List.filter is_removed_record l).

Definition gone_or_locked (h : host) (path : string) : Prop :=
  match files h !! path with
  | None => True
  | Some f => removable f = false
  end.

Definition pass_keeps (n : Z) (h : host) (r : result Z) (h' : host) : Prop :=
  dirs h' = dirs h /\
  stdout h' = stdout h /\
  size (files h) + removed_records (log h) = size (files h') + removed_records (log h') /\
  removed_records (log h) <= removed_records (log h') /\
  (forall path, files h !! path = None -> files h' !! path = None) /\
  (forall path, gone_or_locked h path -> gone_or_locked h' path) /\
  match r with
  | Ok n' =>
      n' = (n + Z.of_nat (removed_records (log h')) - Z.of_nat (removed_records (log h)))%Z
  | Raise e => invalid_argument e = true \/ not_found e = true
  end.




(** Every file of [h'] is a file of [h] that the host lets remove or not
    as before. *)
Definition same_locks (h h' : host) : Prop :=
  forall path f', files h' !! path = Some f' ->
    exists f, files h !! path = Some f /\ removable f = removable f'.

(** A directory of notes with an empty directory below it: nothing for the
    walker to act on. *)
Definition notes_host : host :=
  {| files :=
       {[ "/n/readme.txt" := FileNode [x68; x69] true true true;
          "/n/MODEL.KEY" := FileNode [x24; x0a] true true true ]};
     dirs := {[ "/n" := [("/n", ["readme.txt"; "MODEL.KEY"]); ("/n/empty", [])] ]};
     log := [];
     stdout := [] |}.

(** A results directory: two junk files, one of which the host refuses to
    remove, and a deck. *)
Definition results_host : host :=
  {| files :=
       {[ "/r/d3dump01" := FileNode [x00] true true true;
          "/r/model.hm" := FileNode [x01] true true false;
          "/r/run/deck.key" := FileNode (list_byte_of_string deck_text) true true true ]};
     dirs := {[ "/r" := [("/r", ["d3dump01"; "model.hm"]); ("/r/run", ["deck.key"])] ]};
     log := [];
     stdout := [] |}.

(** A run directory: two junk files that the host lets remove, between
    them one that it does not, a deck, and notes that are read-only. *)
Definition run_host : host :=
  {| files :=
       {[ "/d/d3dump01" := FileNode [x00] true true true;
          "/d/mess0001" := FileNode [x01] true true false;
          "/d/run.k" := FileNode (list_byte_of_string deck_text) true true true;
          "/d/lsrun.out" := FileNode [x02] true true true;
          "/d/notes.txt" := FileNode [x68; x69] true false true ]};
     dirs := {[ "/d" := [("/d", ["d3dump01"; "mess0001"; "run.k"; "lsrun.out"; "notes.txt"])] ]};
     log := [];
     stdout := [] |}.

(** Decoders for the example hosts.  On 7-bit bytes the four multi-byte
    encodings read as ASCII does, and byte 255 is valid in none of them;
    the examples hold no other byte.  The replacing reader puts a question
    mark for what does not decode. *)
Definition example_decode_as (enc : encoding) : list byte -> option string :=
  match enc with
  | latin1 => latin1_decode
  | _ => ascii_decode
  end.

Definition example_decode_replace (bytes : list byte) : string :=
  universal_newlines
    (string_of_list_byte
       (map (fun b => if (Byte.to_N b <? 128)%N then b else x3f) bytes)).

(** * Properties *)

(** ** Strings *)

Module StrFacts.
Import Str.

Lemma startswith_append (p rest : string) : startswith (p +:+ rest) p = true.
Proof.
  induction p as [|c p IH]; simpl; [done|].
  by rewrite Ascii.eqb_refl, IH.
Qed.

Lemma startswith_spec (s p : string) :
  startswith s p = true <-> exists rest, s = p +:+ rest.
Proof.
  split.
  - revert s. induction p as [|c p IH]; intros s H; simpl in *.
    + by exists s.
    + destruct s as [|d s]; [done|].
      apply andb_true_iff in H as [Hc Hs]. apply Ascii.eqb_eq in Hc as ->.
      destruct (IH _ Hs) as [rest ->]. by exists rest.
  - intros [rest ->]. apply startswith_append.
Qed.

Lemma endswith_unfold (s suffix : string) :
  endswith s suffix =
  String.eqb s suffix ||
  match s with
  | EmptyString => false
  | String _ s' => endswith s' suffix
  end.
Proof. by destruct s. Qed.

Lemma endswith_spec (s suffix : string) :
  endswith s suffix = true <-> exists pre, s = pre +:+ suffix.
Proof.
  split.
  - induction s as [|c s IH]; rewrite endswith_unfold; intros H;
      apply orb_true_iff in H as [H|H].
    + apply String.eqb_eq in H as <-. by exists EmptyString.
    + done.
    + apply String.eqb_eq in H as <-. by exists EmptyString.
    + destruct (IH H) as [pre ->]. by exists (String c pre).
  - intros [pre ->]. induction pre as [|c pre IH]; rewrite endswith_unfold.
    + simpl. by rewrite String.eqb_refl.
    + simpl. rewrite IH. apply orb_true_r.
Qed.

Lemma startswith_any_spec (s : string) (ps : list string) :
  startswith_any s ps = true <-> exists p, In p ps /\ exists rest, s = p +:+ rest.
Proof.
  unfold startswith_any. rewrite existsb_exists.
  split; intros (p & Hin & H); exists p; split; try done; by apply startswith_spec.
Qed.

Lemma endswith_any_spec (s : string) (ss : list string) :
  endswith_any s ss = true <-> exists e, In e ss /\ exists pre, s = pre +:+ e.
Proof.
  unfold endswith_any. rewrite existsb_exists.
  split; intros (p & Hin & H); exists p; split; try done; by apply endswith_spec.
Qed.

End StrFacts.

(** ** Line filter *)

Lemma line_to_keep_some (line : string) :
  line_to_keep (Some line) =
  Ok (match line with
      | EmptyString => true
      | String c _ => negb (Ascii.eqb c "$")
      end).
Proof.
  destruct line as [|c line]; simpl; [done|]. by rewrite andb_true_r.
Qed.

(** C1, as stated: the filter would keep exactly the non-empty lines that do
    not begin with the sentinel.  It does not: the empty line is kept. *)
Lemma line_to_keep_empty_line_kept :
  line_to_keep (Some EmptyString) = Ok true /\ spec_keep EmptyString = false /\
  not (forall line, line_to_keep (Some line) = Ok (spec_keep line)).
Proof.
  split; [done|]. split; [done|].
  intros H. specialize (H EmptyString). discriminate H.
Qed.

(** C1, amended: the filter keeps a line if and only if the line does not
    start with the sentinel, that is, it is empty or its first character is
    not '$'; it agrees with the specification's wording on every non-empty
    line; and the absent line raises [TypeError] (an invalid argument)
    instead of answering. *)
Theorem line_to_keep_spec :
  (forall line,
     (line_to_keep (Some line) = Ok true <->
        line = EmptyString \/ exists c rest, line = String c rest /\ c <> "$"%char) /\
     (line_to_keep (Some line) = Ok false <->
        exists rest, line = String "$" rest) /\
     (line <> EmptyString -> line_to_keep (Some line) = Ok (spec_keep line))) /\
  line_to_keep None = Raise (TypeError "line is None") /\
  invalid_argument (TypeError "line is None") = true.
Proof.
  split.
  - intros line. rewrite line_to_keep_some.
    destruct line as [|c rest]; simpl.
    + split; [|split]; try done.
      * split; [by left|done].
      * split; [done|]. by intros [rest H].
    + destruct (Ascii.eqb_spec c "$") as [->|Hc]; simpl.
      * split; [|split]; try done.
        -- split; [done|]. intros [H|(c & r & H & Hc)]; [done|]. by inversion H; subst.
        -- split; [by exists rest|done].
      * split; [|split]; try done.
        -- split; [|done]. intros _. right. by exists c, rest.
        -- split; [done|]. intros [r H]. inversion H; subst. done.
  - done.
Qed.

(** ** Junk classification *)

Lemma file_starts_to_remove_spec (flag : bool) (p : string) :
  In p (file_starts_to_remove flag) <-> In p (spec_prefixes flag).
Proof. destruct flag; simpl; tauto. Qed.

Lemma lower_char_idempotent (c : ascii) :
  Str.lower_char (Str.lower_char c) = Str.lower_char c.
Proof. destruct c as [[] [] [] [] [] [] [] []]; reflexivity. Qed.

Lemma lower_idempotent (s : string) : Str.lower (Str.lower s) = Str.lower s.
Proof.
  induction s as [|c s IH]; simpl; [done|].
  by rewrite lower_char_idempotent, IH.
Qed.

Lemma is_junk_true (file : string) (flag : bool) :
  is_junk file flag = true <->
  (exists e, In e spec_extensions /\ exists pre, Str.lower file = pre +:+ e) \/
  (exists p, In p (spec_prefixes flag) /\ exists rest, Str.lower file = p +:+ rest).
Proof.
  unfold is_junk. rewrite orb_true_iff.
  rewrite StrFacts.endswith_any_spec, StrFacts.startswith_any_spec.
  split; (intros [H|(p & Hp & H)]; [by left|right]); exists p; split; try done;
    by apply file_starts_to_remove_spec.
Qed.

(** C2: the junk test is a function of the name and the flag alone; it holds
    exactly when the lower-cased name ends with one of the five extensions
    or starts with one of the nine prefixes (and "d3p" under the flag); names
    with the same lower-casing are classified alike; and the three examples
    of the specification come out as it says.  The case of the letters does
    not count: the lower-casing of "ANSA_Model.HM" is "ansa_model.hm", and
    "MODEL.HM", "LsRun.Log" and "Mess.TXT" are junk though no extension and
    no prefix of the lists occurs in them as written, as "D3PLOT01" is under
    the flag and is not without it. *)
Theorem is_junk_spec (file : string) (flag : bool) :
  (is_junk file flag = true <->
     (exists e, In e spec_extensions /\ exists pre, Str.lower file = pre +:+ e) \/
     (exists p, In p (spec_prefixes flag) /\ exists rest, Str.lower file = p +:+ rest)) /\
  is_junk (Str.lower file) flag = is_junk file flag /\
  (forall other, Str.lower other = Str.lower file -> is_junk other flag = is_junk file flag) /\
  is_junk "ANSA_model.hm" flag = true /\
  is_junk "d3plot01" true = true /\
  is_junk "d3plot01" false = false /\
  Str.lower "ANSA_Model.HM" = "ansa_model.hm" /\
  is_junk "MODEL.HM" flag = true /\
  is_junk "LsRun.Log" flag = true /\
  is_junk "Mess.TXT" flag = true /\
  is_junk "D3PLOT01" true = true /\
  is_junk "D3PLOT01" false = false /\
  Str.endswith_any "MODEL.HM" spec_extensions = false /\
  Str.startswith_any "LsRun.Log" (spec_prefixes flag) = false.
Proof.
  split; [apply is_junk_true|].
  split; [unfold is_junk; by rewrite lower_idempotent|].
  split; [intros other H; unfold is_junk; by rewrite H|].
  split; [by destruct flag|].
  do 3 (split; [done|]).
  do 3 (split; [by destruct flag|]).
  do 3 (split; [done|]).
  by destruct flag.
Qed.

Lemma is_junk_spec_witness :
  is_junk "Mess.TXT" false = is_junk "mESS.txt" false /\
  is_junk "ANSA_model.hm" true = true /\
  is_junk "MODEL.HM" false = true.
Proof.
  destruct (is_junk_spec "mESS.txt" false) as (_ & _ & Hsame & _ & _ & _ & _ & Hfold & _).
  split; [apply Hsame; reflexivity|].
  split; [exact (proj1 (proj2 (proj2 (proj2 (is_junk_spec "x" true))))) | exact Hfold].
Defined.

(** C10: setting the flag only adds the prefix "d3p": a name that is junk
    with the flag unset is junk with the flag set. *)
Theorem flag_only_enlarges (file : string) :
  is_junk file false = true -> is_junk file true = true.
Proof.
  unfold is_junk. rewrite !orb_true_iff. intros [H|H]; [by left|right].
  unfold Str.startswith_any, file_starts_to_remove in *.
  rewrite existsb_app, H. done.
Qed.

Lemma flag_only_enlarges_witness :
  is_junk "lsrun.out.k" false = true /\ is_junk "lsrun.out.k" true = true.
Proof.
  split; [reflexivity|]. apply (flag_only_enlarges "lsrun.out.k"). reflexivity.
Defined.

(** ** Lines of a text *)

Lemma append_empty (s : string) : s +:+ EmptyString = s.
Proof. induction s as [|c s IH]; simpl; [done|]. by rewrite IH. Qed.

Lemma joined_readlines (text : string) : joined (readlines text) = text.
Proof.
  induction text as [|c text IH]; simpl; [done|].
  destruct (Ascii.eqb c newline); simpl; [by rewrite IH|].
  destruct (readlines text) as [|line lines]; simpl in *; by rewrite <- IH.
Qed.

Lemma readlines_text_lines (text : string) : text_lines (readlines text).
Proof.
  induction text as [|c text IH]; simpl; [constructor|].
  destruct (Ascii.eqb_spec c newline) as [->|Hc].
  - by apply (text_lines_cons EmptyString).
  - assert (Ascii.eqb c newline = false) as Hcb by by apply Ascii.eqb_neq.
    destruct (readlines text) as [|line lines].
    + apply text_lines_last. simpl. by rewrite Hcb.
    + inversion IH as [|body c' Hbody|body lines' Hbody Hlines]; subst.
      * apply text_lines_last. simpl in *. by rewrite Hcb.
      * apply (text_lines_cons (String c body)); [|done].
        simpl. by rewrite Hcb.
Qed.

Lemma text_lines_filter (f : string -> bool) (lines : list string) :
  text_lines lines -> text_lines (List.filter f lines).
Proof.
  induction 1 as [|body c Hbody|body lines Hbody Hlines IH]; simpl.
  - constructor.
  - destruct (f _); by constructor.
  - destruct (f _); [by constructor|done].
Qed.

Lemma readlines_open (c : ascii) (body : string) :
  no_newline (String c body) = true -> readlines (String c body) = [String c body].
Proof.
  revert c. induction body as [|d body IH]; intros c H; simpl in *.
  - apply andb_true_iff in H as [Hc _]. apply negb_true_iff in Hc. by rewrite Hc.
  - apply andb_true_iff in H as [Hc H]. apply negb_true_iff in Hc. rewrite Hc.
    specialize (IH d H). simpl in IH. by rewrite IH.
Qed.

Lemma readlines_line (body rest : string) :
  no_newline body = true ->
  readlines ((body +:+ String newline EmptyString) +:+ rest) =
  (body +:+ String newline EmptyString) :: readlines rest.
Proof.
  induction body as [|c body IH]; intros H; simpl in *; [done|].
  apply andb_true_iff in H as [Hc H]. apply negb_true_iff in Hc. rewrite Hc.
  by rewrite (IH H).
Qed.

Lemma readlines_joined (lines : list string) :
  text_lines lines -> readlines (joined lines) = lines.
Proof.
  induction 1 as [|body c Hbody|body lines Hbody Hlines IH].
  - done.
  - cbn [joined fold_right]. rewrite append_empty. by apply readlines_open.
  - cbn [joined fold_right]. fold (joined lines). by rewrite readlines_line, IH.
Qed.

Lemma filter_kept_twice (lines : list string) :
  List.filter kept (List.filter kept lines) = List.filter kept lines.
Proof.
  induction lines as [|line lines IH]; simpl; [done|].
  destruct (kept line) eqn:E; simpl; [|done]. by rewrite E, IH.
Qed.

(** Reading back the kept lines of a text gives these lines. *)
Lemma readlines_kept (text : string) :
  readlines (joined (List.filter kept (readlines text))) = List.filter kept (readlines text).
Proof. apply readlines_joined, text_lines_filter, readlines_text_lines. Qed.

(** ** The key file rewriter *)

Ltac unfold_monad :=
  unfold mbind, M_bind, bind, mret, M_ret, ret, try_except, raise, lift,
    os_path_exists, os_path_isdir, os_walk, logging_info, logging_error, print.

Lemma path_exists_file (h : host) (path : string) (f : file_node) :
  path <> EmptyString -> files h !! path = Some f -> path_exists h path = true.
Proof.
  intros Hne Hf. destruct path as [|c path]; [done|].
  unfold path_exists. rewrite Hf. rewrite bool_decide_eq_true_2; [done|by eexists].
Qed.

Lemma eqb_empty_false (path : string) :
  path <> EmptyString -> String.eqb path EmptyString = false.
Proof. intros H. by apply String.eqb_neq. Qed.

Section Rewriter.

Variable decode : list byte -> option string.
Variable encode : string -> list byte.

Lemma kept_lines_filter (lines : list string) (h : host) :
  kept_lines lines h = (Ok (List.filter kept lines), h).
Proof.
  induction lines as [|line lines IH]; [done|].
  cbn [kept_lines]. unfold_monad. cbn [line_to_keep]. rewrite IH.
  fold (kept line). simpl. by destruct (kept line).
Qed.

Lemma process_file_rewrites (path : string) (h : host) (f : file_node) (text : string) :
  path <> EmptyString ->
  files h !! path = Some f ->
  readable f = true -> writable f = true ->
  decode (data f) = Some text ->
  process_file decode encode (Some path) h = (Ok tt, rewritten encode path f (readlines text) h).
Proof.
  intros Hne Hf Hr Hw Hd. unfold process_file.
  rewrite (eqb_empty_false _ Hne). unfold_monad.
  rewrite (path_exists_file _ _ _ Hne Hf). cbn [negb].
  unfold open_readlines. rewrite Hf, Hr, Hd.
  rewrite kept_lines_filter.
  unfold open_writelines, rewritten. by rewrite Hf, Hw.
Qed.

Lemma process_file_missing (path : string) (h : host) :
  path <> EmptyString -> path_exists h path = false ->
  process_file decode encode (Some path) h =
  (Raise (FileNotFoundError ("File not found: " +:+ path)), h).
Proof.
  intros Hne He. unfold process_file.
  rewrite (eqb_empty_false _ Hne). unfold_monad. by rewrite He.
Qed.

Lemma process_file_undecodable (path : string) (h : host) (f : file_node) :
  path <> EmptyString ->
  files h !! path = Some f ->
  readable f = true ->
  decode (data f) = None ->
  process_file decode encode (Some path) h =
  (Ok tt, add_log (ERROR, ErrorDecoding path (UnicodeDecodeError path)) h).
Proof.
  intros Hne Hf Hr Hd. unfold process_file.
  rewrite (eqb_empty_false _ Hne). unfold_monad.
  rewrite (path_exists_file _ _ _ Hne Hf). cbn [negb].
  unfold open_readlines. by rewrite Hf, Hr, Hd.
Qed.

End Rewriter.


Section RewriterClaims.

Variable decode : list byte -> option string.
Variable encode : string -> list byte.


(** Where the host reads back what the rewriter wrote, a second rewrite
    changes nothing and reports zero lines removed. *)
Lemma process_file_twice (path : string) (h : host) (f : file_node) (text : string) :
  path <> EmptyString ->
  files h !! path = Some f ->
  readable f = true -> writable f = true ->
  decode (data f) = Some text ->
  decode (encode (joined (List.filter kept (readlines text)))) =
    Some (joined (List.filter kept (readlines text))) ->
  process_file decode encode (Some path) (after (process_file decode encode (Some path)) h) =
  (Ok tt, add_log (INFO, ProcessedFile path 0) (after (process_file decode encode (Some path)) h)).
Proof.
  intros Hne Hf Hr Hw Hd Hback. unfold after.
  rewrite (process_file_rewrites decode encode path h f text Hne Hf Hr Hw Hd). cbn [snd].
  set (new_lines := List.filter kept (readlines text)) in *.
  set (f1 := FileNode (encode (joined new_lines)) (readable f) (writable f) (removable f)).
  assert (files (rewritten encode path f (readlines text) h) !! path = Some f1) as Hf1.
  { unfold rewritten. cbn [files add_log set_files]. by rewrite lookup_insert_eq. }
  rewrite (process_file_rewrites decode encode path _ f1 (joined new_lines) Hne Hf1 Hr Hw Hback).
  f_equal. subst new_lines. rewrite readlines_kept.
  unfold rewritten at 1. rewrite filter_kept_twice, Z.sub_diag.
  f_equal. unfold rewritten, set_files, add_log. cbn [files dirs log stdout].
  f_equal. rewrite insert_insert_eq. by subst f1.
Qed.

End RewriterClaims.

(** ** The tree walker *)

Lemma os_remove_raise (path : string) (h : host) (e : exn) :
  fst (os_remove path h) = Raise e -> os_remove path h = (Raise e, h).
Proof.
  unfold os_remove. destruct (files h !! path) as [f|]; [destruct (removable f)|];
    simpl; intros H; by try rewrite H.
Qed.

Lemma classify_delete (file : string) (flag : bool) :
  classify file flag = Delete <-> is_junk file flag = true.
Proof. unfold classify. by destruct (is_junk file flag), (is_key_file file). Qed.

Lemma classify_rewrite (file : string) (flag : bool) :
  classify file flag = Rewrite <-> is_junk file flag = false /\ is_key_file file = true.
Proof.
  unfold classify. destruct (is_junk file flag), (is_key_file file); split; try done;
    by intros [? ?].
Qed.

Lemma classify_untouched (file : string) (flag : bool) :
  classify file flag = Untouched <-> is_junk file flag = false /\ is_key_file file = false.
Proof.
  unfold classify. destruct (is_junk file flag), (is_key_file file); split; try done;
    by intros [? ?].
Qed.

Lemma is_key_file_spec (file : string) :
  is_key_file file = true <->
  exists stem, file = stem +:+ ".key" \/ file = stem +:+ ".k".
Proof.
  unfold is_key_file. rewrite StrFacts.endswith_any_spec. split.
  - intros (e & [<-|[<-|[]]] & stem & ->); exists stem; [by left | by right].
  - intros (stem & [->| ->]); [exists ".key"|exists ".k"]; simpl; eauto.
Qed.

Section Walker.

Variable decode : list byte -> option string.
Variable encode : string -> list byte.

Lemma visit_file_junk (flag : bool) (root file : string) (n : Z) (h : host) :
  is_junk file flag = true ->
  visit_file decode encode flag root file n h =
  match os_remove (os_path_join root file) h with
  | (Ok _, h') => (Ok (n + 1)%Z, add_log (INFO, RemovedFile (os_path_join root file) (n + 1)) h')
  | (Raise e, h') => (Ok n, add_log (ERROR, FailedToRemove (os_path_join root file) e) h')
  end.
Proof.
  intros Hj. unfold visit_file. rewrite Hj. unfold_monad.
  by destruct (os_remove (os_path_join root file) h) as [[[]|e] h'].
Qed.

Lemma visit_file_key (flag : bool) (root file : string) (n : Z) (h : host) :
  is_junk file flag = false -> is_key_file file = true ->
  visit_file decode encode flag root file n h =
  match process_file decode encode (Some (os_path_join root file)) h with
  | (Ok _, h') => (Ok n, h')
  | (Raise e, h') =>
      (Raise e, add_log (ERROR, UnhandledProcessing (os_path_join root file) e) h')
  end.
Proof.
  intros Hj Hk. unfold visit_file. rewrite Hj, Hk. unfold_monad.
  by destruct (process_file decode encode (Some (os_path_join root file)) h) as [[[]|e] h'].
Qed.

Lemma visit_file_other (flag : bool) (root file : string) (n : Z) (h : host) :
  is_junk file flag = false -> is_key_file file = false ->
  visit_file decode encode flag root file n h = (Ok n, h).
Proof. intros Hj Hk. unfold visit_file. by rewrite Hj, Hk. Qed.

Lemma visit_files_cons (flag : bool) (root file : string) (names : list string)
    (n : Z) (h : host) :
  visit_files decode encode flag root (file :: names) n h =
  match visit_file decode encode flag root file n h with
  | (Ok n', h') => visit_files decode encode flag root names n' h'
  | (Raise e, h') => (Raise e, h')
  end.
Proof. done. Qed.

Lemma visit_files_app (flag : bool) (root : string) (names1 names2 : list string)
    (n : Z) (h : host) :
  visit_files decode encode flag root (names1 ++ names2) n h =
  match visit_files decode encode flag root names1 n h with
  | (Ok n', h') => visit_files decode encode flag root names2 n' h'
  | (Raise e, h') => (Raise e, h')
  end.
Proof.
  revert n h. induction names1 as [|file names1 IH]; intros n h; [done|].
  rewrite <- app_comm_cons, !visit_files_cons.
  destruct (visit_file decode encode flag root file n h) as [[n'|e] h']; [apply IH|done].
Qed.

Lemma visit_dirs_cons (flag : bool) (root : string) (names : list string)
    (walk : list (string * list string)) (n : Z) (h : host) :
  visit_dirs decode encode flag ((root, names) :: walk) n h =
  match visit_files decode encode flag root names n h with
  | (Ok n', h') => visit_dirs decode encode flag walk n' h'
  | (Raise e, h') => (Raise e, h')
  end.
Proof. done. Qed.

Lemma visit_dirs_app (flag : bool) (walk1 walk2 : list (string * list string))
    (n : Z) (h : host) :
  visit_dirs decode encode flag (walk1 ++ walk2) n h =
  match visit_dirs decode encode flag walk1 n h with
  | (Ok n', h') => visit_dirs decode encode flag walk2 n' h'
  | (Raise e, h') => (Raise e, h')
  end.
Proof.
  revert n h. induction walk1 as [|[root names] walk1 IH]; intros n h; [done|].
  rewrite <- app_comm_cons, !visit_dirs_cons.
  destruct (visit_files decode encode flag root names n h) as [[n'|e] h']; [apply IH|done].
Qed.

(** The walk up to a file: the directories [before], then the names
    [names_before] of the directory [root]. *)
Lemma visit_dirs_upto (flag : bool) (before : list (string * list string))
    (root : string) (names_before names : list string)
    (walk : list (string * list string)) (n0 n1 n : Z) (h0 h1 h : host) :
  visit_dirs decode encode flag before n0 h0 = (Ok n1, h1) ->
  visit_files decode encode flag root names_before n1 h1 = (Ok n, h) ->
  visit_dirs decode encode flag (before ++ (root, names_before ++ names) :: walk) n0 h0 =
  visit_dirs decode encode flag ((root, names) :: walk) n h.
Proof.
  intros Hb Hn. rewrite visit_dirs_app, Hb, !visit_dirs_cons, visit_files_app, Hn. done.
Qed.

Lemma remove_lines_in_files_walk (flag : bool) (directory : string) (h : host)
    (walk : list (string * list string)) :
  path_isdir h directory = true -> dirs h !! directory = Some walk ->
  remove_lines_in_files decode encode (Some directory) flag h =
  match visit_dirs decode encode flag walk 0 h with
  | (Ok _, h') => (Ok tt, add_stdout "All .key files have been processed." h')
  | (Raise e, h') => (Raise e, h')
  end.
Proof.
  intros Hd Hw. unfold remove_lines_in_files. unfold_monad.
  rewrite Hd. cbn [negb]. rewrite Hw. cbn [default].
  reflexivity.
Qed.

End Walker.

Section WalkerClaims.

Variable decode : list byte -> option string.
Variable encode : string -> list byte.

(** C4: at any point of the walk, reached after the directories [before]
    and the names [names_before] of [root]: when removing a junk file fails,
    the failure is logged, the files of the host and the count of removed
    files stay as they are, and the walk goes on with the names that remain;
    when the rewriter raises on a key file, the exception is logged and
    raised again, and the walk, whatever names and directories remain, ends
    there with that exception, as does [remove_lines_in_files].  Logged
    means that the log afterwards is the log before followed by the one
    error record: of the failed removal (line 135) in the first case, of
    the exception of the rewriter (line 141) in the second, where the
    completion line is not printed either. *)
Theorem walk_failure_policy (flag : bool) (before : list (string * list string))
    (root : string) (names_before : list string) (file : string) (rest : list string)
    (walk : list (string * list string)) (n0 n1 n : Z) (h0 h1 h : host) :
  visit_dirs decode encode flag before n0 h0 = (Ok n1, h1) ->
  visit_files decode encode flag root names_before n1 h1 = (Ok n, h) ->
  (is_junk file flag = true ->
   forall e, fst (os_remove (os_path_join root file) h) = Raise e ->
     visit_file decode encode flag root file n h =
       (Ok n, add_log (ERROR, FailedToRemove (os_path_join root file) e) h) /\
     files (add_log (ERROR, FailedToRemove (os_path_join root file) e) h) = files h /\
     visit_dirs decode encode flag
       (before ++ (root, names_before ++ file :: rest) :: walk) n0 h0 =
     visit_dirs decode encode flag ((root, rest) :: walk) n
       (add_log (ERROR, FailedToRemove (os_path_join root file) e) h) /\
     fst (visit_file decode encode flag root file n h) = Ok n /\
     files (after (visit_file decode encode flag root file n) h) = files h /\
     log (after (visit_file decode encode flag root file n) h) =
       log h ++ [(ERROR, FailedToRemove (os_path_join root file) e)]) /\
  (is_junk file flag = false -> is_key_file file = true ->
   forall e h', process_file decode encode (Some (os_path_join root file)) h = (Raise e, h') ->
     visit_dirs decode encode flag
       (before ++ (root, names_before ++ file :: rest) :: walk) n0 h0 =
     (Raise e, add_log (ERROR, UnhandledProcessing (os_path_join root file) e) h') /\
     log (after (visit_dirs decode encode flag
                   (before ++ (root, names_before ++ file :: rest) :: walk) n0) h0) =
       log h' ++ [(ERROR, UnhandledProcessing (os_path_join root file) e)] /\
     forall directory,
       n0 = 0%Z ->
       path_isdir h0 directory = true ->
       dirs h0 !! directory = Some (before ++ (root, names_before ++ file :: rest) :: walk) ->
       remove_lines_in_files decode encode (Some directory) flag h0 =
       (Raise e, add_log (ERROR, UnhandledProcessing (os_path_join root file) e) h') /\
       log (after (remove_lines_in_files decode encode (Some directory) flag) h0) =
         log h' ++ [(ERROR, UnhandledProcessing (os_path_join root file) e)] /\
       stdout (after (remove_lines_in_files decode encode (Some directory) flag) h0) =
         stdout h').
Proof.
  intros Hb Hn.
  pose proof (visit_dirs_upto decode encode flag before root names_before (file :: rest)
                walk n0 n1 n h0 h1 h Hb Hn) as Hupto.
  split.
  - intros Hj e He. apply os_remove_raise in He.
    assert (visit_file decode encode flag root file n h =
            (Ok n, add_log (ERROR, FailedToRemove (os_path_join root file) e) h)) as Hv.
    { by rewrite (visit_file_junk decode encode flag root file n h Hj), He. }
    split; [done|]. split; [done|].
    split; [rewrite Hupto; by rewrite !visit_dirs_cons, visit_files_cons, Hv|].
    unfold after. by rewrite Hv.
  - intros Hj Hk e h' Hp.
    assert (visit_dirs decode encode flag
              (before ++ (root, names_before ++ file :: rest) :: walk) n0 h0 =
            (Raise e, add_log (ERROR, UnhandledProcessing (os_path_join root file) e) h'))
      as Hv.
    { rewrite Hupto, visit_dirs_cons, visit_files_cons.
      by rewrite (visit_file_key decode encode flag root file n h Hj Hk), Hp. }
    split; [done|]. split; [unfold after; by rewrite Hv|].
    intros directory -> Hd Hw. unfold after.
    by rewrite (remove_lines_in_files_walk decode encode flag directory h0 _ Hd Hw), Hv.
Qed.

(** C5, amended: the absent and the empty path raise [ValueError], an
    invalid argument and not the not-found error, with the host untouched,
    though the empty path names no file.  A non-empty path that names
    nothing raises [FileNotFoundError] with the host untouched, so before
    any read; a readable file whose bytes do not decode leaves the rewriter
    without an exception, the files of the host as they were, and one error
    record in the log, and a walk that reached the file as a key file goes
    on with the names that remain. *)
Theorem process_file_failures (path : string) (h : host) :
  (process_file decode encode None h =
     (Raise (ValueError "file_path is None or empty"), h) /\
   process_file decode encode (Some EmptyString) h =
     (Raise (ValueError "file_path is None or empty"), h) /\
   path_exists h EmptyString = false /\
   invalid_argument (ValueError "file_path is None or empty") = true /\
   not_found (ValueError "file_path is None or empty") = false) /\
  (path <> EmptyString ->
   (path_exists h path = false ->
    process_file decode encode (Some path) h =
      (Raise (FileNotFoundError ("File not found: " +:+ path)), h) /\
    not_found (FileNotFoundError ("File not found: " +:+ path)) = true /\
    invalid_argument (FileNotFoundError ("File not found: " +:+ path)) = false) /\
   (forall f, files h !! path = Some f -> readable f = true -> decode (data f) = None ->
    fst (process_file decode encode (Some path) h) = Ok tt /\
    files (after (process_file decode encode (Some path)) h) = files h /\
    log (after (process_file decode encode (Some path)) h) =
      log h ++ [(ERROR, ErrorDecoding path (UnicodeDecodeError path))] /\
    forall flag root file rest n,
      os_path_join root file = path ->
      is_junk file flag = false -> is_key_file file = true ->
      visit_files decode encode flag root (file :: rest) n h =
      visit_files decode encode flag root rest n
        (after (process_file decode encode (Some path)) h))).
Proof.
  split; [done|].
  intros Hne. split.
  - intros He. split; [by apply process_file_missing|done].
  - intros f Hf Hr Hd. unfold after.
    rewrite (process_file_undecodable decode encode path h f Hne Hf Hr Hd).
    split; [done|]. split; [done|]. split; [done|].
    intros flag root file rest n <- Hj Hk.
    rewrite visit_files_cons, (visit_file_key decode encode flag root file n h Hj Hk).
    by rewrite (process_file_undecodable decode encode _ h f Hne Hf Hr Hd).
Qed.

(** C7: a name that passes both the junk test and the key-file test takes
    the junk branch: the walker tries to remove it and never rewrites it.
    A file of that name which the host lets remove is gone afterwards, one
    more file is counted, and the log ends with the record of its removal;
    every file of the host is afterwards as it was or gone.  The branch
    taken is a function of the name and the flag: it is exactly one of
    delete (the junk test holds), rewrite (it fails and the key-file test
    holds) and untouched (both fail), and the walker does on the file what
    that branch says. *)
Theorem junk_check_first (flag : bool) (root file : string) (n : Z) (h : host) :
  (is_junk file flag = true -> is_key_file file = true ->
   classify file flag = Delete /\
   visit_file decode encode flag root file n h =
     match os_remove (os_path_join root file) h with
     | (Ok _, h') =>
         (Ok (n + 1)%Z, add_log (INFO, RemovedFile (os_path_join root file) (n + 1)) h')
     | (Raise e, h') => (Ok n, add_log (ERROR, FailedToRemove (os_path_join root file) e) h')
     end /\
   (forall f, files h !! os_path_join root file = Some f -> removable f = true ->
      fst (visit_file decode encode flag root file n h) = Ok (n + 1)%Z /\
      files (after (visit_file decode encode flag root file n) h) !! os_path_join root file =
        None /\
      path_exists (after (visit_file decode encode flag root file n) h)
        (os_path_join root file) = path_isdir h (os_path_join root file) /\
      log (after (visit_file decode encode flag root file n) h) =
        log h ++ [(INFO, RemovedFile (os_path_join root file) (n + 1))]) /\
   forall path,
     content (after (visit_file decode encode flag root file n) h) path = content h path \/
     content (after (visit_file decode encode flag root file n) h) path = None) /\
  (classify file flag = Delete <-> is_junk file flag = true) /\
  (classify file flag = Rewrite <-> is_junk file flag = false /\ is_key_file file = true) /\
  (classify file flag = Untouched <-> is_junk file flag = false /\ is_key_file file = false) /\
  visit_file decode encode flag root file n h =
    match classify file flag with
    | Delete =>
        match os_remove (os_path_join root file) h with
        | (Ok _, h') =>
            (Ok (n + 1)%Z, add_log (INFO, RemovedFile (os_path_join root file) (n + 1)) h')
        | (Raise e, h') =>
            (Ok n, add_log (ERROR, FailedToRemove (os_path_join root file) e) h')
        end
    | Rewrite =>
        match process_file decode encode (Some (os_path_join root file)) h with
        | (Ok _, h') => (Ok n, h')
        | (Raise e, h') =>
            (Raise e, add_log (ERROR, UnhandledProcessing (os_path_join root file) e) h')
        end
    | Untouched => (Ok n, h)
    end.
Proof.
  split; [|split; [apply classify_delete|split; [apply classify_rewrite|
           split; [apply classify_untouched|]]]].
  - intros Hj Hk. split; [by apply classify_delete|].
    split; [by apply visit_file_junk|].
    split.
    { intros f Hf Hrm. unfold after.
      rewrite (visit_file_junk decode encode flag root file n h Hj).
      unfold os_remove. rewrite Hf, Hrm.
      cbn [fst snd add_log set_files files log].
      split; [done|]. split; [by rewrite lookup_delete_eq|]. split; [|done].
      unfold path_exists, path_isdir.
      destruct (os_path_join root file) as [|c p] eqn:Hp; [done|].
      cbn [files dirs add_log set_files]. rewrite lookup_delete_eq.
      rewrite (bool_decide_eq_false_2 (is_Some None)); [done|].
      by intros [? ?]. }
    intros path. unfold after, content.
    rewrite (visit_file_junk decode encode flag root file n h Hj).
    unfold os_remove. destruct (files h !! os_path_join root file) as [f|] eqn:Hf;
      [destruct (removable f)|]; cbn [snd add_log set_files files]; try by left.
    destruct (decide (os_path_join root file = path)) as [<-|Hne].
    + right. by rewrite lookup_delete_eq.
    + left. by rewrite lookup_delete_ne.
  - unfold classify.
    destruct (is_junk file flag) eqn:Hj; [by apply visit_file_junk|].
    destruct (is_key_file file) eqn:Hk; [by apply visit_file_key|by apply visit_file_other].
Qed.

(** C8: a name that is not junk goes to the rewriter if and only if it ends
    in ".key" or ".k", compared as written: with such an ending the walker
    runs [process_file] on its path, without it the host is left as it is.
    "MODEL.KEY" is neither junk nor a key file and is left untouched. *)
Theorem key_file_test (flag : bool) (root file : string) (n : Z) (h : host) :
  is_junk file flag = false ->
  (is_key_file file = true <->
     exists stem, file = stem +:+ ".key" \/ file = stem +:+ ".k") /\
  (is_key_file file = true ->
   visit_file decode encode flag root file n h =
     match process_file decode encode (Some (os_path_join root file)) h with
     | (Ok _, h') => (Ok n, h')
     | (Raise e, h') =>
         (Raise e, add_log (ERROR, UnhandledProcessing (os_path_join root file) e) h')
     end) /\
  (is_key_file file = false ->
   visit_file decode encode flag root file n h = (Ok n, h)) /\
  is_junk "MODEL.KEY" flag = false /\
  is_key_file "MODEL.KEY" = false /\
  visit_file decode encode flag root "MODEL.KEY" n h = (Ok n, h).
Proof.
  intros Hj. split; [apply is_key_file_spec|].
  split; [intros Hk; by apply visit_file_key|].
  split; [intros Hk; by apply visit_file_other|].
  assert (is_junk "MODEL.KEY" flag = false) as Hm by by destruct flag.
  split; [done|]. split; [done|]. by apply visit_file_other.
Qed.

(** C9, amended: the absent directory raises [TypeError] (an invalid
    argument) with the host untouched; every path that is no directory of
    the host, the empty path among them, raises [FileNotFoundError] with
    the host untouched, so before any traversal. *)
Theorem walker_validates_directory (flag : bool) (h : host) :
  (remove_lines_in_files decode encode None flag h =
     (Raise (TypeError "directory is None"), h) /\
   invalid_argument (TypeError "directory is None") = true) /\
  (forall directory, path_isdir h directory = false ->
     remove_lines_in_files decode encode (Some directory) flag h =
       (Raise (FileNotFoundError ("directory " +:+ directory +:+ " is not a valid directory")),
        h) /\
     not_found (FileNotFoundError ("directory " +:+ directory +:+ " is not a valid directory"))
       = true) /\
  path_isdir h EmptyString = false.
Proof.
  split; [done|]. split; [|done].
  intros directory Hd.
  split; [unfold remove_lines_in_files; unfold_monad; by rewrite Hd|done].
Qed.

End WalkerClaims.

(** ** The theorems on the example hosts *)



Lemma process_file_failures_witness :
  process_file ascii_decode utf8_encode (Some "/w/gone.k") work_host =
    (Raise (FileNotFoundError "File not found: /w/gone.k"), work_host) /\
  fst (process_file ascii_decode utf8_encode (Some "/w/bad.key") work_host) = Ok tt /\
  files (after (process_file ascii_decode utf8_encode (Some "/w/bad.key")) work_host) =
    files work_host /\
  visit_files ascii_decode utf8_encode false "/w" ["bad.key"; "readme.txt"] 0 work_host =
    visit_files ascii_decode utf8_encode false "/w" ["readme.txt"] 0
      (after (process_file ascii_decode utf8_encode (Some "/w/bad.key")) work_host).
Proof.
  split.
  - apply (proj1 (proj2 (process_file_failures ascii_decode utf8_encode "/w/gone.k" work_host)
                    ltac:(discriminate))).
    vm_compute. reflexivity.
  - destruct (proj2 (proj2 (process_file_failures ascii_decode utf8_encode "/w/bad.key"
                              work_host)
                       ltac:(discriminate)) (FileNode [xff; x0a] true true true))
      as (Hok & Hfiles & _ & Hwalk).
    + vm_compute. reflexivity.
    + reflexivity.
    + vm_compute. reflexivity.
    + split; [exact Hok|]. split; [exact Hfiles|].
      apply Hwalk; reflexivity.
Defined.

(** C5 as stated, for every path: the empty path names no file of the
    host, yet the rewriter does not fail with the not-found error for it.
    It raises [ValueError], its error for an absent or empty argument. *)
Lemma process_file_empty_path_invalid :
  path_exists work_host EmptyString = false /\
  process_file ascii_decode utf8_encode (Some EmptyString) work_host =
    (Raise (ValueError "file_path is None or empty"), work_host) /\
  not_found (ValueError "file_path is None or empty") = false /\
  not (forall (h : host) (path : string),
         path_exists h path = false ->
         exists e, fst (process_file ascii_decode utf8_encode (Some path) h) = Raise e /\
                   not_found e = true).
Proof.
  split; [reflexivity|]. split; [reflexivity|]. split; [reflexivity|].
  intros H. destruct (H work_host EmptyString eq_refl) as (e & He & Hnf).
  cbn in He. inversion He; subst. discriminate Hnf.
Qed.

(** C6 on a host whose default encoding is ISO-8859-1: the key file holds
    the line "caf" followed by byte 233 and a newline.  The first rewrite
    stores the line in UTF-8 (bytes 195 169 for the last letter); the second
    reads these two bytes as two characters and stores four bytes for them.
    No line is removed by either rewrite, and the content after two rewrites
    differs from the content after one. *)
Theorem rewrite_twice_latin1_host :
  content (after (process_file latin1_decode utf8_encode (Some "/w/cafe.k")) cafe_host)
    "/w/cafe.k" = Some [x63; x61; x66; xc3; xa9; x0a] /\
  content
    (after (process_file latin1_decode utf8_encode (Some "/w/cafe.k"))
       (after (process_file latin1_decode utf8_encode (Some "/w/cafe.k")) cafe_host))
    "/w/cafe.k" = Some [x63; x61; x66; xc3; x83; xc2; xa9; x0a] /\
  log
    (after (process_file latin1_decode utf8_encode (Some "/w/cafe.k"))
       (after (process_file latin1_decode utf8_encode (Some "/w/cafe.k")) cafe_host)) =
    [(INFO, ProcessedFile "/w/cafe.k" 0); (INFO, ProcessedFile "/w/cafe.k" 0)] /\
  not (forall (decode : list byte -> option string) (h : host) (path : string),
         content (after (process_file decode utf8_encode (Some path))
                    (after (process_file decode utf8_encode (Some path)) h)) path =
         content (after (process_file decode utf8_encode (Some path)) h) path).
Proof.
  split; [vm_compute; reflexivity|]. split; [vm_compute; reflexivity|].
  split; [vm_compute; reflexivity|].
  intros H. specialize (H latin1_decode cafe_host "/w/cafe.k").
  vm_compute in H. discriminate H.
Qed.

(** On the ASCII deck the host reads back what was written, and the second
    rewrite reports zero lines removed. *)
Example process_file_twice_deck :
  process_file ascii_decode utf8_encode (Some "/w/deck.k")
    (after (process_file ascii_decode utf8_encode (Some "/w/deck.k")) work_host) =
  (Ok tt,
   add_log (INFO, ProcessedFile "/w/deck.k" 0)
     (after (process_file ascii_decode utf8_encode (Some "/w/deck.k")) work_host)).
Proof.
  apply (process_file_twice ascii_decode utf8_encode "/w/deck.k" work_host
           (FileNode (list_byte_of_string deck_text) true true true) deck_text).
  - discriminate.
  - vm_compute. reflexivity.
  - reflexivity.
  - reflexivity.
  - vm_compute. reflexivity.
  - vm_compute. reflexivity.
Qed.

Lemma walk_failure_policy_witness :
  visit_file ascii_decode utf8_encode false "/w" "model.ansa" 0 work_host =
    (Ok 0%Z,
     add_log (ERROR, FailedToRemove "/w/model.ansa" (PermissionError "/w/model.ansa"))
       work_host) /\
  log (after (visit_file ascii_decode utf8_encode false "/w" "model.ansa" 0) work_host) =
    [(ERROR, FailedToRemove "/w/model.ansa" (PermissionError "/w/model.ansa"))] /\
  fst (remove_lines_in_files ascii_decode utf8_encode (Some "/w") false work_host) =
    Raise (FileNotFoundError "File not found: /w/gone.k") /\
  log (after (remove_lines_in_files ascii_decode utf8_encode (Some "/w") false) work_host) =
    [(ERROR, FailedToRemove "/w/model.ansa" (PermissionError "/w/model.ansa"));
     (INFO, ProcessedFile "/w/deck.k" 2);
     (ERROR, UnhandledProcessing "/w/gone.k" (FileNotFoundError "File not found: /w/gone.k"))] /\
  stdout (after (remove_lines_in_files ascii_decode utf8_encode (Some "/w") false) work_host) =
    [].
Proof.
  destruct (walk_failure_policy ascii_decode utf8_encode false [] "/w" [] "model.ansa"
              ["readme.txt"; "deck.k"; "gone.k"; "bad.key"] [] 0 0 0
              work_host work_host work_host eq_refl eq_refl) as [Hjunk _].
  destruct (Hjunk eq_refl (PermissionError "/w/model.ansa"))
    as (Hvisit & _ & _ & _ & _ & Hlog); [vm_compute; reflexivity|].
  split; [exact Hvisit|]. split; [exact Hlog|].
  destruct (walk_failure_policy ascii_decode utf8_encode false [] "/w"
              ["model.ansa"; "readme.txt"; "deck.k"] "gone.k" ["bad.key"] [] 0 0 0
              work_host work_host
              (after (visit_files ascii_decode utf8_encode false "/w"
                        ["model.ansa"; "readme.txt"; "deck.k"] 0) work_host))
    as [_ Hkey].
  - reflexivity.
  - vm_compute. reflexivity.
  - destruct (Hkey eq_refl eq_refl (FileNotFoundError "File not found: /w/gone.k")
                (after (visit_files ascii_decode utf8_encode false "/w"
                          ["model.ansa"; "readme.txt"; "deck.k"] 0) work_host))
      as (_ & _ & Hwalk); [vm_compute; reflexivity|].
    destruct (Hwalk "/w" eq_refl) as (Hraise & Hlogs & Hout);
      [vm_compute; reflexivity|vm_compute; reflexivity|].
    split; [by rewrite Hraise|].
    split; [rewrite Hlogs; vm_compute; reflexivity|].
    rewrite Hout. vm_compute. reflexivity.
Defined.

Lemma junk_check_first_witness :
  is_junk "mess.key" false = true /\ is_key_file "mess.key" = true /\
  classify "mess.key" false = Delete /\
  content overlap_host "/o/mess.key" = Some (list_byte_of_string deck_text) /\
  fst (visit_file ascii_decode utf8_encode false "/o" "mess.key" 0 overlap_host) = Ok 1%Z /\
  files (after (visit_file ascii_decode utf8_encode false "/o" "mess.key" 0) overlap_host)
    !! "/o/mess.key" = None /\
  log (after (visit_file ascii_decode utf8_encode false "/o" "mess.key" 0) overlap_host) =
    [(INFO, RemovedFile "/o/mess.key" 1)].
Proof.
  split; [reflexivity|]. split; [reflexivity|].
  destruct (junk_check_first ascii_decode utf8_encode false "/o" "mess.key" 0 overlap_host)
    as [Hfirst _].
  destruct (Hfirst eq_refl eq_refl) as (Hdelete & _ & Hgone & _).
  split; [exact Hdelete|]. split; [reflexivity|].
  destruct (Hgone (FileNode (list_byte_of_string deck_text) true true true))
    as (Hcount & Hnone & _ & Hlog); [vm_compute; reflexivity|reflexivity|].
  split; [exact Hcount|]. split; [exact Hnone|exact Hlog].
Defined.

Lemma key_file_test_witness :
  visit_file ascii_decode utf8_encode false "/w" "readme.txt" 0 work_host = (Ok 0%Z, work_host) /\
  visit_file ascii_decode utf8_encode false "/w" "MODEL.KEY" 0 work_host = (Ok 0%Z, work_host).
Proof.
  destruct (key_file_test ascii_decode utf8_encode false "/w" "readme.txt" 0 work_host eq_refl)
    as (_ & _ & Hother & _ & _ & Hmodel).
  split; [exact (Hother eq_refl)|exact Hmodel].
Defined.

(** C9, as stated: the empty directory path would fail as an invalid
    argument.  It does not: the walker raises [FileNotFoundError], the
    not-found error, for it. *)
Lemma walker_empty_path_not_found :
  remove_lines_in_files ascii_decode utf8_encode (Some EmptyString) false work_host =
    (Raise (FileNotFoundError "directory  is not a valid directory"), work_host) /\
  invalid_argument (FileNotFoundError "directory  is not a valid directory") = false /\
  not (forall (h : host) (flag : bool),
         exists e, fst (remove_lines_in_files ascii_decode utf8_encode
                          (Some EmptyString) flag h) = Raise e /\
                   invalid_argument e = true).
Proof.
  split; [reflexivity|]. split; [reflexivity|].
  intros H. destruct (H work_host false) as (e & He & Hinv).
  cbn in He. inversion He; subst. discriminate Hinv.
Qed.

Lemma walker_validates_directory_witness :
  remove_lines_in_files ascii_decode utf8_encode (Some "/nowhere") true work_host =
    (Raise (FileNotFoundError "directory /nowhere is not a valid directory"), work_host).
Proof.
  apply (proj1 (proj2 (walker_validates_directory ascii_decode utf8_encode true work_host))
           "/nowhere").
  vm_compute. reflexivity.
Defined.

(** * Further properties of the code *)

(** ** The rewriter on every argument *)

Section RewriterCases.

Variable decode : list byte -> option string.
Variable encode : string -> list byte.

(** What [process_file] does on a path that exists, by the state of the
    file. *)
Lemma process_file_existing (path : string) (h : host) :
  path <> EmptyString -> path_exists h path = true ->
  process_file decode encode (Some path) h =
  match files h !! path with
  | None => (Ok tt, add_log (ERROR, UnhandledProcessing path (IsADirectoryError path)) h)
  | Some f =>
      if readable f then
        match decode (data f) with
        | None => (Ok tt, add_log (ERROR, ErrorDecoding path (UnicodeDecodeError path)) h)
        | Some text =>
            if writable f then (Ok tt, rewritten encode path f (readlines text) h)
            else (Ok tt, add_log (ERROR, UnhandledProcessing path (PermissionError path)) h)
        end
      else (Ok tt, add_log (ERROR, UnhandledProcessing path (PermissionError path)) h)
  end.
Proof.
  intros Hne He. unfold process_file.
  rewrite (eqb_empty_false _ Hne). unfold_monad. rewrite He. cbn [negb].
  unfold open_readlines. destruct (files h !! path) as [f|] eqn:Hf.
  - destruct (readable f) eqn:Hr; [|done].
    destruct (decode (data f)) as [text|] eqn:Hd; [|done].
    rewrite kept_lines_filter. unfold open_writelines, rewritten. rewrite Hf.
    by destruct (writable f) eqn:Hw.
  - unfold no_file_error.
    assert (path_isdir h path = true) as ->; [|done].
    destruct path as [|c path]; [done|]. unfold path_exists, path_isdir in *.
    rewrite Hf in He. rewrite bool_decide_eq_false_2 in He; [done|].
    by intros [? ?].
Qed.

(** X1: the exceptions that leave [process_file].  It raises [ValueError]
    exactly on the absent and the empty path, [FileNotFoundError] exactly on
    a non-empty path that names nothing, each time with the host untouched,
    and returns normally in every other case. *)
Theorem process_file_raises (file_path : option string) (h : host) :
  (process_file decode encode file_path h =
     (Raise (ValueError "file_path is None or empty"), h) <->
   file_path = None \/ file_path = Some EmptyString) /\
  (forall path, file_path = Some path ->
     (process_file decode encode file_path h =
        (Raise (FileNotFoundError ("File not found: " +:+ path)), h) <->
      path <> EmptyString /\ path_exists h path = false) /\
     (fst (process_file decode encode file_path h) = Ok tt <->
      path_exists h path = true)) /\
  (forall e, fst (process_file decode encode file_path h) = Raise e ->
     after (process_file decode encode file_path) h = h /\
     (invalid_argument e = true \/ not_found e = true)).
Proof.
  unfold after. destruct file_path as [path|].
  2:{ split; [split; [by left|done]|]. split; [done|].
      intros e He. cbn in He. inversion He; subst. split; [done|by left]. }
  destruct (decide (path = EmptyString)) as [->|Hne].
  { split; [split; [by right|done]|]. split.
    - intros ? [= <-]. split; [split; [done|by intros [? _]]|done].
    - intros e He. cbn in He. inversion He; subst. split; [done|by left]. }
  destruct (path_exists h path) eqn:Hex.
  - pose proof (process_file_existing path h Hne Hex) as Hp.
    assert (fst (process_file decode encode (Some path) h) = Ok tt) as Hok.
    { rewrite Hp. destruct (files h !! path) as [f|]; [|done].
      destruct (readable f); [|done]. destruct (decode (data f)); [|done].
      by destruct (writable f). }
    split; [|split].
    + split; [|intros [?|?]; congruence].
      intros H. rewrite H in Hok. by cbn in Hok.
    + intros ? [= <-]. split; [|done].
      split; [|intros [_ ?]; congruence]. intros H. rewrite H in Hok. by cbn in Hok.
    + intros e He. rewrite Hok in He. discriminate He.
  - rewrite (process_file_missing decode encode path h Hne Hex).
    split; [|split].
    + split; [done|intros [?|?]; congruence].
    + intros ? [= <-]. split; [done|]. rewrite Hex. cbn. by split.
    + intros e [= <-]. split; [done|by right].
Qed.

(** X2: a failure of the host on a file that exists stays inside the
    rewriter.  When the path is a directory, or the file cannot be read, or
    it reads and decodes but cannot be written, [process_file] returns
    normally, the files are exactly as before, and the log gains the one
    error record of line 86. *)
Theorem process_file_io_failure (path : string) (h : host) :
  path <> EmptyString -> path_exists h path = true ->
  (files h !! path = None \/
   exists f, files h !! path = Some f /\
     (readable f = false \/ (is_Some (decode (data f)) /\ writable f = false))) ->
  exists e,
    process_file decode encode (Some path) h =
      (Ok tt, add_log (ERROR, UnhandledProcessing path e) h) /\
    files (after (process_file decode encode (Some path)) h) = files h /\
    e = (if bool_decide (files h !! path = None) then IsADirectoryError path
         else PermissionError path).
Proof.
  intros Hne Hex Hcase. unfold after.
  rewrite (process_file_existing path h Hne Hex).
  destruct Hcase as [Hf|(f & Hf & Hcase)]; rewrite Hf.
  - eexists. split; [done|]. split; [done|]. by rewrite bool_decide_eq_true_2.
  - exists (PermissionError path). rewrite bool_decide_eq_false_2 by done.
    destruct Hcase as [Hr|[[text Hd] Hw]].
    + by rewrite Hr.
    + rewrite Hd, Hw. by destruct (readable f).
Qed.

(** X3: what [process_file] never does.  On every argument and host it
    prints nothing, neither adds nor removes a file, keeps the permissions
    of every file, and adds at most one record to the log. *)
Theorem process_file_frame (file_path : option string) (h : host) :
  stdout (after (process_file decode encode file_path) h) = stdout h /\
  dom (files (after (process_file decode encode file_path) h)) = dom (files h) /\
  (forall path f, files h !! path = Some f ->
     exists f', files (after (process_file decode encode file_path) h) !! path = Some f' /\
       readable f' = readable f /\ writable f' = writable f /\ removable f' = removable f) /\
  (log (after (process_file decode encode file_path) h) = log h \/
   exists r, log (after (process_file decode encode file_path) h) = log h ++ [r]).
Proof.
  assert (forall r, stdout (add_log r h) = stdout h /\
            dom (files (add_log r h)) = dom (files h) /\
            (forall path f, files h !! path = Some f ->
               exists f', files (add_log r h) !! path = Some f' /\
                 readable f' = readable f /\ writable f' = writable f /\
                 removable f' = removable f) /\
            (log (add_log r h) = log h \/ exists r', log (add_log r h) = log h ++ [r']))
    as Hlogged.
  { intros r. split; [done|]. split; [done|]. split; [|right; by exists r].
    intros path f Hf. by exists f. }
  assert (stdout h = stdout h /\ dom (files h) = dom (files h) /\
          (forall path f, files h !! path = Some f ->
             exists f', files h !! path = Some f' /\
               readable f' = readable f /\ writable f' = writable f /\
               removable f' = removable f) /\
          (log h = log h \/ exists r', log h = log h ++ [r'])) as Hsame.
  { split; [done|]. split; [done|]. split; [|by left].
    intros path f Hf. by exists f. }
  unfold after. destruct file_path as [path|]; [|exact Hsame].
  destruct (decide (path = EmptyString)) as [->|Hne]; [exact Hsame|].
  destruct (path_exists h path) eqn:Hex.
  2:{ rewrite (process_file_missing decode encode path h Hne Hex). exact Hsame. }
  rewrite (process_file_existing path h Hne Hex).
  destruct (files h !! path) as [f|] eqn:Hf; [|apply Hlogged].
  destruct (readable f); [|apply Hlogged].
  destruct (decode (data f)) as [text|]; [|apply Hlogged].
  destruct (writable f); [|apply Hlogged].
  cbn [snd rewritten add_log set_files files dirs log stdout].
  split; [done|].
  split; [apply dom_insert_lookup_L; by eexists|].
  split; [|right; by eexists].
  intros other g Hg. destruct (decide (path = other)) as [<-|Hother].
  - rewrite lookup_insert_eq. eexists. split; [done|].
    rewrite Hf in Hg. injection Hg as <-. cbn. by repeat split.
  - rewrite lookup_insert_ne by done. exists g. by repeat split.
Qed.

End RewriterCases.

(** ** The text that a rewrite stores *)

Lemma filter_kept_all (lines : list string) :
  Forall (fun line => kept line = true) lines -> List.filter kept lines = lines.
Proof.
  induction 1 as [|line lines Hline Hlines IH]; simpl; [done|]. by rewrite Hline, IH.
Qed.

Lemma filter_kept_none (lines : list string) :
  Forall (fun line => kept line = false) lines -> List.filter kept lines = [].
Proof.
  induction 1 as [|line lines Hline Hlines IH]; simpl; [done|]. by rewrite Hline.
Qed.

Lemma filter_kept_Forall (lines : list string) :
  Forall (fun line => kept line = true) (List.filter kept lines).
Proof.
  induction lines as [|line lines IH]; simpl; [constructor|].
  destruct (kept line) eqn:E; [by constructor|done].
Qed.

Lemma readlines_rewrite_text (text : string) :
  readlines (rewrite_text text) = List.filter kept (readlines text).
Proof. apply readlines_kept. Qed.

Section StoredText.

Variable decode : list byte -> option string.
Variable encode : string -> list byte.

(** X4: the text that a rewrite stores is a fixed point of the rewrite.
    The file gets the encoding of [rewrite_text text]; the lines of that
    text are the lines of [text] that do not start with '$', none of its
    lines starts with '$', rewriting it again gives the same text, and no
    further line is dropped. *)
Theorem process_file_stores_fixed_point
    (path : string) (h : host) (f : file_node) (text : string) :
  path <> EmptyString ->
  files h !! path = Some f ->
  readable f = true -> writable f = true ->
  decode (data f) = Some text ->
  content (after (process_file decode encode (Some path)) h) path =
    Some (encode (rewrite_text text)) /\
  readlines (rewrite_text text) = List.filter kept (readlines text) /\
  Forall (fun line => Str.startswith line "$" = false) (readlines (rewrite_text text)) /\
  rewrite_text (rewrite_text text) = rewrite_text text /\
  length (readlines (rewrite_text (rewrite_text text))) =
    length (readlines (rewrite_text text)).
Proof.
  intros Hne Hf Hr Hw Hd. unfold after, content.
  rewrite (process_file_rewrites decode encode path h f text Hne Hf Hr Hw Hd).
  cbn [snd rewritten add_log set_files files]. rewrite lookup_insert_eq.
  split; [done|]. split; [apply readlines_rewrite_text|].
  assert (rewrite_text (rewrite_text text) = rewrite_text text) as Hfix.
  { unfold rewrite_text at 1. rewrite readlines_rewrite_text, filter_kept_twice. done. }
  split; [|split; [done|by rewrite Hfix]].
  rewrite readlines_rewrite_text.
  eapply Forall_impl; [apply filter_kept_Forall|].
  intros line Hline. unfold kept in Hline. by apply negb_true_iff.
Qed.

(** X5: the two extremes of a rewrite.  A file none of whose lines starts
    with '$' gets its own text back and is reported with 0 lines removed; a
    file whose every line starts with '$' is left empty and is reported
    with as many lines removed as it had. *)
Theorem process_file_extremes
    (path : string) (h : host) (f : file_node) (text : string) :
  path <> EmptyString ->
  files h !! path = Some f ->
  readable f = true -> writable f = true ->
  decode (data f) = Some text ->
  (Forall (fun line => Str.startswith line "$" = false) (readlines text) ->
   content (after (process_file decode encode (Some path)) h) path = Some (encode text) /\
   log (after (process_file decode encode (Some path)) h) =
     log h ++ [(INFO, ProcessedFile path 0)]) /\
  (Forall (fun line => Str.startswith line "$" = true) (readlines text) ->
   content (after (process_file decode encode (Some path)) h) path =
     Some (encode EmptyString) /\
   log (after (process_file decode encode (Some path)) h) =
     log h ++ [(INFO, ProcessedFile path (Z.of_nat (length (readlines text))))]).
Proof.
  intros Hne Hf Hr Hw Hd. unfold after, content.
  rewrite (process_file_rewrites decode encode path h f text Hne Hf Hr Hw Hd).
  cbn [snd rewritten add_log set_files files log]. rewrite lookup_insert_eq.
  cbn [fmap option_fmap option_map data]. split; intros Hall.
  - rewrite filter_kept_all.
    + by rewrite joined_readlines, Z.sub_diag.
    + eapply Forall_impl; [exact Hall|]. intros line Hline. unfold kept. by rewrite Hline.
  - rewrite filter_kept_none.
    + cbn [joined fold_right length]. by rewrite Z.sub_0_r.
    + eapply Forall_impl; [exact Hall|]. intros line Hline. unfold kept. by rewrite Hline.
Qed.

(** X6: on a host that reads back the text a rewrite stored, a second
    rewrite is a no-op: it returns normally, leaves every file with the
    bytes and permissions the first rewrite left, and logs 0 lines
    removed. *)
Theorem second_rewrite_is_noop
    (path : string) (h : host) (f : file_node) (text : string) :
  path <> EmptyString ->
  files h !! path = Some f ->
  readable f = true -> writable f = true ->
  decode (data f) = Some text ->
  decode (encode (rewrite_text text)) = Some (rewrite_text text) ->
  fst (process_file decode encode (Some path)
         (after (process_file decode encode (Some path)) h)) = Ok tt /\
  files (after (process_file decode encode (Some path))
           (after (process_file decode encode (Some path)) h)) =
    files (after (process_file decode encode (Some path)) h) /\
  log (after (process_file decode encode (Some path))
         (after (process_file decode encode (Some path)) h)) =
    log (after (process_file decode encode (Some path)) h) ++
    [(INFO, ProcessedFile path 0)].
Proof.
  intros Hne Hf Hr Hw Hd Hback.
  pose proof (process_file_twice decode encode path h f text Hne Hf Hr Hw Hd Hback) as Htwice.
  set (h1 := after (process_file decode encode (Some path)) h) in *.
  unfold after. by rewrite Htwice.
Qed.

End StoredText.

(** ** What the walk keeps *)

Lemma removed_records_app (l : list (level * message)) (r : level * message) :
  removed_records (l ++ [r]) =
  removed_records l + (if is_removed_record r then 1 else 0).
Proof.
  unfold removed_records. rewrite List.filter_app, length_app. simpl.
  by destruct (is_removed_record r).
Qed.

Lemma pass_keeps_refl (n : Z) (h : host) : pass_keeps n h (Ok n) h.
Proof. unfold pass_keeps. repeat split; try done. lia. Qed.

Lemma pass_keeps_trans (n n1 : Z) (h h1 h2 : host) (r : result Z) :
  pass_keeps n h (Ok n1) h1 -> pass_keeps n1 h1 r h2 -> pass_keeps n h r h2.
Proof.
  intros (Hd1 & Hs1 & Hz1 & Hm1 & Hf1 & Hg1 & Hn1) (Hd2 & Hs2 & Hz2 & Hm2 & Hf2 & Hg2 & Hr).
  unfold pass_keeps. split; [congruence|]. split; [congruence|].
  split; [lia|]. split; [lia|]. split; [auto|]. split; [auto|].
  destruct r as [n2|e]; [lia|done].
Qed.

Lemma pass_keeps_logged (n : Z) (h h' : host) (r : result Z) (rec : level * message) :
  is_removed_record rec = false ->
  pass_keeps n h r h' -> pass_keeps n h r (add_log rec h').
Proof.
  intros Hrec (Hd & Hs & Hz & Hm & Hf & Hg & Hr). unfold pass_keeps.
  cbn [add_log dirs stdout files log]. rewrite removed_records_app, Hrec, Nat.add_0_r.
  by repeat split.
Qed.

Section WalkKeeps.

Variable decode : list byte -> option string.
Variable encode : string -> list byte.

Lemma process_file_keeps (file_path : option string) (h : host) :
  dirs (after (process_file decode encode file_path) h) = dirs h /\
  stdout (after (process_file decode encode file_path) h) = stdout h /\
  size (files (after (process_file decode encode file_path) h)) = size (files h) /\
  removed_records (log (after (process_file decode encode file_path) h)) =
    removed_records (log h) /\
  (forall path, gone_or_locked h path ->
     gone_or_locked (after (process_file decode encode file_path) h) path) /\
  (forall path, file_path <> Some path ->
     files (after (process_file decode encode file_path) h) !! path = files h !! path) /\
  (forall path, files h !! path = None ->
     files (after (process_file decode encode file_path) h) !! path = None) /\
  (forall e, fst (process_file decode encode file_path h) = Raise e ->
     invalid_argument e = true \/ not_found e = true).
Proof.
  assert (forall rec, is_removed_record rec = false ->
            dirs (add_log rec h) = dirs h /\ stdout (add_log rec h) = stdout h /\
            size (files (add_log rec h)) = size (files h) /\
            removed_records (log (add_log rec h)) = removed_records (log h) /\
            (forall path, gone_or_locked h path -> gone_or_locked (add_log rec h) path) /\
            (forall path, file_path <> Some path ->
               files (add_log rec h) !! path = files h !! path) /\
            (forall path, files h !! path = None ->
               files (add_log rec h) !! path = None)) as Hlogged.
  { intros rec Hrec. cbn [add_log dirs stdout files log].
    rewrite removed_records_app, Hrec, Nat.add_0_r. by repeat split. }
  unfold after. destruct file_path as [path|].
  2:{ cbn. repeat split; try done. intros e [= <-]. by left. }
  destruct (decide (path = EmptyString)) as [->|Hne].
  { cbn. repeat split; try done. intros e [= <-]. by left. }
  destruct (path_exists h path) eqn:Hex.
  2:{ rewrite (process_file_missing decode encode path h Hne Hex). cbn [fst snd].
      repeat split; try done. intros e [= <-]. by right. }
  rewrite (process_file_existing decode encode path h Hne Hex).
  destruct (files h !! path) as [f|] eqn:Hf.
  2:{ cbn [fst snd]. destruct (Hlogged (ERROR, UnhandledProcessing path (IsADirectoryError path)))
        as (? & ? & ? & ? & ? & ? & ?); by repeat split. }
  destruct (readable f).
  2:{ cbn [fst snd]. destruct (Hlogged (ERROR, UnhandledProcessing path (PermissionError path)))
        as (? & ? & ? & ? & ? & ? & ?); by repeat split. }
  destruct (decode (data f)) as [text|].
  2:{ cbn [fst snd]. destruct (Hlogged (ERROR, ErrorDecoding path (UnicodeDecodeError path)))
        as (? & ? & ? & ? & ? & ? & ?); by repeat split. }
  destruct (writable f).
  2:{ cbn [fst snd]. destruct (Hlogged (ERROR, UnhandledProcessing path (PermissionError path)))
        as (? & ? & ? & ? & ? & ? & ?); by repeat split. }
  cbn [fst snd rewritten add_log set_files dirs stdout files log].
  rewrite removed_records_app. cbn [is_removed_record snd]. rewrite Nat.add_0_r.
  split; [done|]. split; [done|].
  split; [apply map_size_insert_Some; by eexists|]. split; [done|].
  split; [|split; [|split; [|done]]].
  - intros p Hp. unfold gone_or_locked, rewritten in *. cbn [files add_log set_files].
    destruct (decide (path = p)) as [<-|Hp'].
    + rewrite lookup_insert_eq. by rewrite Hf in Hp.
    + by rewrite lookup_insert_ne.
  - intros p Hp. rewrite lookup_insert_ne; [done|congruence].
  - intros p Hp. rewrite lookup_insert_ne; [done|congruence].
Qed.

Lemma visit_file_keeps (flag : bool) (root file : string) (n : Z) (h : host) :
  pass_keeps n h (fst (visit_file decode encode flag root file n h))
    (after (visit_file decode encode flag root file n) h) /\
  (forall path, (os_path_join root file = path -> acted_on flag file = false) ->
     files (after (visit_file decode encode flag root file n) h) !! path = files h !! path) /\
  (is_junk file flag = true ->
     gone_or_locked (after (visit_file decode encode flag root file n) h)
       (os_path_join root file)).
Proof.
  unfold after, acted_on. destruct (is_junk file flag) eqn:Hj.
  - rewrite (visit_file_junk decode encode flag root file n h Hj). unfold os_remove.
    destruct (files h !! os_path_join root file) as [f|] eqn:Hf.
    + destruct (removable f) eqn:Hrm; cbn [fst snd].
      * split; [|split].
        -- unfold pass_keeps. cbn [add_log set_files dirs stdout files log].
           rewrite removed_records_app. cbn [is_removed_record snd].
           split; [done|]. split; [done|].
           assert (size (files h) = S (size (delete (os_path_join root file) (files h))))
             as Hsize.
           { rewrite <- (insert_delete_id (files h) _ f Hf) at 1.
             apply map_size_insert_None, lookup_delete_eq. }
           split; [lia|]. split; [lia|]. split; [|split; [|lia]].
           ++ intros p Hp. destruct (decide (os_path_join root file = p)) as [<-|Hp'].
              ** by rewrite lookup_delete_eq.
              ** by rewrite lookup_delete_ne.
           ++ intros p Hp. unfold gone_or_locked in *. cbn [files add_log set_files].
              destruct (decide (os_path_join root file = p)) as [<-|Hp'].
              ** by rewrite lookup_delete_eq.
              ** by rewrite lookup_delete_ne.
        -- intros p Hp. cbn [add_log set_files files].
           rewrite lookup_delete_ne; [done|]. intros Heq. by specialize (Hp Heq).
        -- intros _. unfold gone_or_locked. cbn [add_log set_files files].
           by rewrite lookup_delete_eq.
      * split; [|split].
        -- apply pass_keeps_logged; [done|apply pass_keeps_refl].
        -- done.
        -- intros _. unfold gone_or_locked. cbn [add_log files]. by rewrite Hf.
    + cbn [fst snd]. split; [|split].
      * apply pass_keeps_logged; [done|apply pass_keeps_refl].
      * done.
      * intros _. unfold gone_or_locked. cbn [add_log files]. by rewrite Hf.
  - cbn [orb]. destruct (is_key_file file) eqn:Hk.
    + rewrite (visit_file_key decode encode flag root file n h Hj Hk).
      destruct (process_file_keeps (Some (os_path_join root file)) h)
        as (Hd & Hs & Hz & Hr & Hg & Ho & Hnone & He).
      unfold after in *.
      destruct (process_file decode encode (Some (os_path_join root file)) h)
        as [[[]|e] h'] eqn:Hp; cbn [fst snd] in *.
      * split; [|split; [|done]].
        -- unfold pass_keeps. repeat split; try done; lia.
        -- intros p Hneq. apply Ho. intros [= Heq]. by specialize (Hneq Heq).
      * split; [|split; [|done]].
        -- apply pass_keeps_logged; [done|]. unfold pass_keeps.
           repeat split; try done; try lia. by apply He.
        -- intros p Hneq. cbn [add_log files]. apply Ho.
           intros [= Heq]. by specialize (Hneq Heq).
    + rewrite (visit_file_other decode encode flag root file n h Hj Hk). cbn [fst snd].
      split; [apply pass_keeps_refl|]. by split.
Qed.

End WalkKeeps.

Section WalkLists.

Variable decode : list byte -> option string.
Variable encode : string -> list byte.

Lemma visit_files_keeps (flag : bool) (root : string) (names : list string)
    (n : Z) (h : host) :
  pass_keeps n h (fst (visit_files decode encode flag root names n h))
    (after (visit_files decode encode flag root names n) h) /\
  (forall path,
     (forall file, In file names -> os_path_join root file = path ->
        acted_on flag file = false) ->
     files (after (visit_files decode encode flag root names n) h) !! path =
       files h !! path) /\
  (forall n', fst (visit_files decode encode flag root names n h) = Ok n' ->
     forall file, In file names -> is_junk file flag = true ->
       gone_or_locked (after (visit_files decode encode flag root names n) h)
         (os_path_join root file)).
Proof.
  revert n h. induction names as [|file names IH]; intros n h.
  { split; [apply pass_keeps_refl|]. split; [done|]. by intros n' _ file []. }
  unfold after in *. rewrite visit_files_cons.
  destruct (visit_file_keeps decode encode flag root file n h) as (Hk & Ho & Hj).
  unfold after in *.
  destruct (visit_file decode encode flag root file n h) as [[n1|e] h1] eqn:Hv;
    cbn [fst snd] in *.
  - destruct (IH n1 h1) as (Hk' & Ho' & Hj').
    split; [by eapply pass_keeps_trans|]. split.
    + intros p Hp. rewrite Ho'.
      * apply Ho. intros Heq. apply (Hp file); [by left|done].
      * intros file' Hin Heq. apply (Hp file'); [by right|done].
    + intros n' Hn' file' [<-|Hin] Hjunk.
      * destruct Hk' as (_ & _ & _ & _ & _ & Hg & _). apply Hg. by apply Hj.
      * by eapply Hj'.
  - split; [done|]. split; [|done].
    intros p Hp. apply Ho. intros Heq. apply (Hp file); [by left|done].
Qed.

Lemma visit_dirs_keeps (flag : bool) (walk : list (string * list string))
    (n : Z) (h : host) :
  pass_keeps n h (fst (visit_dirs decode encode flag walk n h))
    (after (visit_dirs decode encode flag walk n) h) /\
  (forall path,
     (forall root names file, In (root, names) walk -> In file names ->
        os_path_join root file = path -> acted_on flag file = false) ->
     files (after (visit_dirs decode encode flag walk n) h) !! path = files h !! path) /\
  (forall n', fst (visit_dirs decode encode flag walk n h) = Ok n' ->
     forall root names file, In (root, names) walk -> In file names ->
       is_junk file flag = true ->
       gone_or_locked (after (visit_dirs decode encode flag walk n) h)
         (os_path_join root file)).
Proof.
  revert n h. induction walk as [|[root names] walk IH]; intros n h.
  { split; [apply pass_keeps_refl|]. split; [done|]. by intros n' _ ? ? ? []. }
  unfold after in *. rewrite visit_dirs_cons.
  destruct (visit_files_keeps flag root names n h) as (Hk & Ho & Hj).
  unfold after in *.
  destruct (visit_files decode encode flag root names n h) as [[n1|e] h1] eqn:Hv;
    cbn [fst snd] in *.
  - destruct (IH n1 h1) as (Hk' & Ho' & Hj').
    split; [by eapply pass_keeps_trans|]. split.
    + intros p Hp. rewrite Ho'; [apply Ho|].
      * intros file Hin. apply (Hp root names file); [by left|done].
      * intros root' names' file Hin Hfile Heq.
        apply (Hp root' names' file); [by right|done|done].
    + intros n' Hn' root' names' file [[= <- <-]|Hin] Hfile Hjunk.
      * destruct Hk' as (_ & _ & _ & _ & _ & Hg & _). apply Hg. by eapply Hj.
      * by eapply Hj'.
  - split; [done|]. split; [|done].
    intros p Hp. apply Ho. intros file Hin. apply (Hp root names file); [by left|done].
Qed.

Lemma visit_dirs_idle (flag : bool) (walk : list (string * list string))
    (n : Z) (h : host) :
  (forall root names file, In (root, names) walk -> In file names ->
     acted_on flag file = false) ->
  visit_dirs decode encode flag walk n h = (Ok n, h).
Proof.
  induction walk as [|[root names] walk IH]; intros Hidle; [done|].
  rewrite visit_dirs_cons.
  assert (visit_files decode encode flag root names n h = (Ok n, h)) as ->.
  { assert (forall file, In file names -> acted_on flag file = false) as Hnames.
    { intros file Hin. apply (Hidle root names file); [by left|done]. }
    clear Hidle IH. induction names as [|file names IHn]; [done|].
    rewrite visit_files_cons.
    destruct (orb_false_elim _ _ (Hnames file (or_introl eq_refl))) as [Hj Hk].
    rewrite (visit_file_other decode encode flag root file n h Hj Hk).
    apply IHn. intros file' Hin. apply Hnames. by right. }
  apply IH. intros root' names' file Hin Hfile.
  apply (Hidle root' names' file); [by right|done].
Qed.

End WalkLists.

(** ** The numbers of the removal records *)








Section Numbers.

Variable decode : list byte -> option string.
Variable encode : string -> list byte.





End Numbers.

(** ** The whole pass *)

Section PassProperties.

Variable decode : list byte -> option string.
Variable encode : string -> list byte.

Lemma remove_lines_in_files_cases (directory : option string) (flag : bool) (h : host) :
  (exists e, remove_lines_in_files decode encode directory flag h = (Raise e, h) /\
             (invalid_argument e = true \/ not_found e = true)) \/
  (exists d, directory = Some d /\ path_isdir h d = true /\
     remove_lines_in_files decode encode directory flag h =
     match visit_dirs decode encode flag (default [] (dirs h !! d)) 0 h with
     | (Ok _, h') => (Ok tt, add_stdout "All .key files have been processed." h')
     | (Raise e, h') => (Raise e, h')
     end).
Proof.
  destruct directory as [d|]; [|left; eexists; split; [done|by left]].
  destruct (path_isdir h d) eqn:Hd.
  - right. exists d. split; [done|]. split; [done|].
    unfold remove_lines_in_files. unfold_monad. by rewrite Hd.
  - left. eexists.
    split; [unfold remove_lines_in_files; unfold_monad; by rewrite Hd|by right].
Qed.

(** X7: how a pass can end.  [remove_lines_in_files] either returns
    normally, and then the completion line is the one thing it printed, or
    raises, and then it printed nothing and the exception is a [TypeError]
    or [ValueError] (an invalid argument) or a [FileNotFoundError]; no
    other exception leaves it. *)
Theorem pass_outcome (directory : option string) (flag : bool) (h : host) :
  match fst (remove_lines_in_files decode encode directory flag h) with
  | Ok _ =>
      stdout (after (remove_lines_in_files decode encode directory flag) h) =
        stdout h ++ ["All .key files have been processed."]
  | Raise e =>
      stdout (after (remove_lines_in_files decode encode directory flag) h) = stdout h /\
      (invalid_argument e = true \/ not_found e = true)
  end.
Proof.
  unfold after.
  destruct (remove_lines_in_files_cases directory flag h)
    as [(e & -> & He)|(d & -> & Hd & ->)]; [done|].
  destruct (visit_dirs_keeps decode encode flag (default [] (dirs h !! d)) 0 h)
    as ((_ & Hout & _ & _ & _ & _ & Hr) & _ & _).
  unfold after in *.
  destruct (visit_dirs decode encode flag (default [] (dirs h !! d)) 0 h)
    as [[n|e] h'] eqn:Hv; cbn [fst snd add_stdout dirs stdout] in *.
  - by rewrite Hout.
  - by split.
Qed.


End PassProperties.

Lemma same_locks_refl (h : host) : same_locks h h.
Proof. intros p f Hf. by exists f. Qed.

Lemma same_locks_trans (h h1 h2 : host) :
  same_locks h h1 -> same_locks h1 h2 -> same_locks h h2.
Proof.
  intros H1 H2 p f2 Hf2. destruct (H2 p f2 Hf2) as (f1 & Hf1 & E1).
  destruct (H1 p f1 Hf1) as (f & Hf & E). exists f. split; [done|congruence].
Qed.

Lemma same_locks_logged (h h' : host) (rec : level * message) :
  same_locks h h' -> same_locks h (add_log rec h').
Proof. done. Qed.

Section Locks.

Variable decode : list byte -> option string.
Variable encode : string -> list byte.

Lemma process_file_locks (file_path : option string) (h : host) :
  same_locks h (after (process_file decode encode file_path) h).
Proof.
  unfold after. destruct file_path as [path|]; [|apply same_locks_refl].
  destruct (decide (path = EmptyString)) as [->|Hne]; [apply same_locks_refl|].
  destruct (path_exists h path) eqn:Hex.
  2:{ rewrite (process_file_missing decode encode path h Hne Hex). apply same_locks_refl. }
  rewrite (process_file_existing decode encode path h Hne Hex).
  destruct (files h !! path) as [f|] eqn:Hf; [|apply same_locks_logged, same_locks_refl].
  destruct (readable f); [|apply same_locks_logged, same_locks_refl].
  destruct (decode (data f)) as [text|]; [|apply same_locks_logged, same_locks_refl].
  destruct (writable f); [|apply same_locks_logged, same_locks_refl].
  intros p f' Hf'. cbn [snd rewritten add_log set_files files] in Hf'.
  destruct (decide (path = p)) as [<-|Hp].
  - rewrite lookup_insert_eq in Hf'. injection Hf' as <-. by exists f.
  - rewrite lookup_insert_ne in Hf' by done. by exists f'.
Qed.

Lemma visit_file_locks (flag : bool) (root file : string) (n : Z) (h : host) :
  same_locks h (after (visit_file decode encode flag root file n) h).
Proof.
  unfold after. destruct (is_junk file flag) eqn:Hj.
  - rewrite (visit_file_junk decode encode flag root file n h Hj). unfold os_remove.
    destruct (files h !! os_path_join root file) as [f|] eqn:Hf;
      [|apply same_locks_logged, same_locks_refl].
    destruct (removable f); [|apply same_locks_logged, same_locks_refl].
    intros p f' Hf'. cbn [snd add_log set_files files] in Hf'.
    destruct (decide (os_path_join root file = p)) as [<-|Hp].
    + by rewrite lookup_delete_eq in Hf'.
    + rewrite lookup_delete_ne in Hf' by done. by exists f'.
  - destruct (is_key_file file) eqn:Hk.
    + rewrite (visit_file_key decode encode flag root file n h Hj Hk).
      pose proof (process_file_locks (Some (os_path_join root file)) h) as Hl.
      unfold after in Hl.
      by destruct (process_file decode encode (Some (os_path_join root file)) h)
        as [[[]|e] h'].
    + rewrite (visit_file_other decode encode flag root file n h Hj Hk).
      apply same_locks_refl.
Qed.

Lemma visit_files_locks (flag : bool) (root : string) (names : list string)
    (n : Z) (h : host) :
  same_locks h (after (visit_files decode encode flag root names n) h).
Proof.
  revert n h. induction names as [|file names IH]; intros n h; [apply same_locks_refl|].
  unfold after in *. rewrite visit_files_cons.
  pose proof (visit_file_locks flag root file n h) as Hl. unfold after in Hl.
  destruct (visit_file decode encode flag root file n h) as [[n1|e] h1]; [|done].
  eapply same_locks_trans; [exact Hl|apply IH].
Qed.

Lemma visit_dirs_locks (flag : bool) (walk : list (string * list string))
    (n : Z) (h : host) :
  same_locks h (after (visit_dirs decode encode flag walk n) h).
Proof.
  revert n h. induction walk as [|[root names] walk IH]; intros n h;
    [apply same_locks_refl|].
  unfold after in *. rewrite visit_dirs_cons.
  pose proof (visit_files_locks flag root names n h) as Hl. unfold after in Hl.
  destruct (visit_files decode encode flag root names n h) as [[n1|e] h1]; [|done].
  eapply same_locks_trans; [exact Hl|apply IH].
Qed.

(** X10: a pass with nothing to do.  Over a directory whose listing holds
    no junk name and no key-file name (an empty directory among them) the
    pass returns normally and changes nothing but the console, which gets
    the completion line: no file, no log record. *)
Theorem idle_pass (d : string) (flag : bool) (h : host) :
  path_isdir h d = true ->
  (forall root names file,
     In (root, names) (default [] (dirs h !! d)) -> In file names ->
     acted_on flag file = false) ->
  remove_lines_in_files decode encode (Some d) flag h =
    (Ok tt, add_stdout "All .key files have been processed." h).
Proof.
  intros Hd Hidle. unfold remove_lines_in_files. unfold_monad.
  rewrite Hd. cbn [negb].
  by rewrite (visit_dirs_idle decode encode flag _ 0 h Hidle).
Qed.

(** X11: after a pass that returns normally, every junk name of the
    listing is gone from the host, unless the host refused to remove it:
    a file that is still there is one the host does not let remove, and a
    file that the host let remove at the start is gone. *)
Theorem junk_gone_after_pass (d : string) (flag : bool) (h : host)
    (root : string) (names : list string) (file : string) :
  fst (remove_lines_in_files decode encode (Some d) flag h) = Ok tt ->
  In (root, names) (default [] (dirs h !! d)) -> In file names ->
  is_junk file flag = true ->
  (forall f', files (after (remove_lines_in_files decode encode (Some d) flag) h)
                !! os_path_join root file = Some f' ->
     removable f' = false /\
     exists f, files h !! os_path_join root file = Some f /\ removable f = false) /\
  (forall f, files h !! os_path_join root file = Some f -> removable f = true ->
     files (after (remove_lines_in_files decode encode (Some d) flag) h)
       !! os_path_join root file = None).
Proof.
  intros Hok Hin Hfile Hjunk. unfold after in *.
  destruct (remove_lines_in_files_cases decode encode (Some d) flag h)
    as [(e & He & _)|(d' & [= <-] & Hd & Hr)]; [by rewrite He in Hok|].
  rewrite Hr in *. clear Hr.
  destruct (visit_dirs_keeps decode encode flag (default [] (dirs h !! d)) 0 h)
    as (_ & _ & Hj).
  pose proof (visit_dirs_locks flag (default [] (dirs h !! d)) 0 h) as Hl.
  unfold after in *.
  destruct (visit_dirs decode encode flag (default [] (dirs h !! d)) 0 h)
    as [[n|e] h'] eqn:Hv; cbn [fst snd add_stdout files] in *; [|done].
  specialize (Hj n eq_refl root names file Hin Hfile Hjunk).
  unfold gone_or_locked in Hj.
  assert (forall f', files h' !! os_path_join root file = Some f' ->
            removable f' = false /\
            exists f, files h !! os_path_join root file = Some f /\ removable f = false)
    as Hstill.
  { intros f' Hf'. rewrite Hf' in Hj. split; [done|].
    destruct (Hl _ _ Hf') as (f & Hf & E). exists f. split; [done|congruence]. }
  split; [exact Hstill|].
  intros f Hf Hrm. destruct (files h' !! os_path_join root file) as [f'|] eqn:Hf'; [|done].
  destruct (Hstill f' eq_refl) as (_ & f0 & Hf0 & Hrm0). congruence.
Qed.

End Locks.

(** ** The helpers [read_file] and [write_file] *)

Section HelperProperties.

Variable decode_as : encoding -> list byte -> option string.
Variable decode_replace : list byte -> string.
Variable encode : string -> list byte.

Lemma try_encodings_readable (encs : list encoding) (path : string) (h : host)
    (f : file_node) :
  files h !! path = Some f -> readable f = true ->
  (forall before enc rest text,
     encs = before ++ enc :: rest ->
     (forall e, In e before -> decode_as e (data f) = None) ->
     decode_as enc (data f) = Some text ->
     try_encodings decode_as encs path h = Some (Ok text)) /\
  ((forall e, In e encs -> decode_as e (data f) = None) ->
   try_encodings decode_as encs path h = None).
Proof.
  intros Hf Hr. induction encs as [|enc0 encs [IHfirst IHnone]].
  { split; [|done]. intros [|] ? ? ? ?; discriminate. }
  split.
  - intros before enc rest text Hsplit Hbefore Henc.
    cbn [try_encodings]. unfold open_read. rewrite Hf, Hr.
    destruct before as [|b before]; cbn in Hsplit; injection Hsplit as <- ->.
    + by rewrite Henc.
    + rewrite (Hbefore enc0 (or_introl eq_refl)).
      apply (IHfirst before enc rest text eq_refl); [|done].
      intros e He. apply Hbefore. by right.
  - intros Hnone. cbn [try_encodings]. unfold open_read. rewrite Hf, Hr.
    rewrite (Hnone enc0 (or_introl eq_refl)). apply IHnone.
    intros e He. apply Hnone. by right.
Qed.

Lemma try_encodings_result (encs : list encoding) (path : string) (h : host)
    (f : file_node) :
  files h !! path = Some f -> readable f = true ->
  try_encodings decode_as encs path h = None \/
  exists text, try_encodings decode_as encs path h = Some (Ok text).
Proof.
  intros Hf Hr. induction encs as [|enc encs IH]; [by left|].
  cbn [try_encodings]. unfold open_read. rewrite Hf, Hr.
  destruct (decode_as enc (data f)) as [text|]; [right; by exists text|exact IH].
Qed.

(** X12: a file that cannot be opened makes [read_file] raise.  The loop
    of lines 180-185 catches decoding errors only, so for a path that names
    no file, or a file the host does not let read, the error of the first
    [open] leaves [read_file]; the handler of lines 192-194 never runs: on no
    host and no path does [read_file] log a read failure. *)
Theorem read_file_open_error (path : string) (h : host) :
  (files h !! path = None ->
   read_file decode_as decode_replace path h = (Raise (no_file_error h path), [])) /\
  (forall f, files h !! path = Some f -> readable f = false ->
   read_file decode_as decode_replace path h = (Raise (PermissionError path), [])) /\
  (forall rec, In rec (snd (read_file decode_as decode_replace path h)) ->
     rec = WarnReplaced path).
Proof.
  assert (files h !! path = None ->
          read_file decode_as decode_replace path h = (Raise (no_file_error h path), []))
    as Hnone.
  { intros Hf. unfold read_file, encodings. cbn [try_encodings]. unfold open_read.
    rewrite Hf. unfold no_file_error. by destruct (path_isdir h path). }
  assert (forall f, files h !! path = Some f -> readable f = false ->
          read_file decode_as decode_replace path h = (Raise (PermissionError path), []))
    as Hlocked.
  { intros f Hf Hr. unfold read_file, encodings. cbn [try_encodings]. unfold open_read.
    by rewrite Hf, Hr. }
  split; [exact Hnone|]. split; [exact Hlocked|].
  intros rec. destruct (files h !! path) as [f|] eqn:Hf.
  - destruct (readable f) eqn:Hr.
    + unfold read_file. rewrite Hf, Hr.
      destruct (try_encodings_result encodings path h f Hf Hr) as [->|[text ->]];
        cbn [snd]; [|done].
      by intros [<-|[]].
    + by rewrite (Hlocked f eq_refl Hr).
  - by rewrite (Hnone eq_refl).
Qed.

Lemma read_file_first_encoding_aux (path : string) (h : host) (f : file_node) :
  files h !! path = Some f -> readable f = true ->
  forall before enc rest text,
    encodings = before ++ enc :: rest ->
    (forall e, In e before -> decode_as e (data f) = None) ->
    decode_as enc (data f) = Some text ->
    read_file decode_as decode_replace path h = (Ok text, []).
Proof.
  intros Hf Hr before enc rest text Hsplit Hbefore Henc. unfold read_file.
  destruct (try_encodings_readable encodings path h f Hf Hr) as [Hfirst _].
  by rewrite (Hfirst before enc rest text Hsplit Hbefore Henc).
Qed.

(** X13: on a file that opens, [read_file] returns the text of the first
    encoding of utf-8, gbk, gb2312, gb18030, latin1 that decodes its bytes,
    and logs nothing; when none of them decodes, it returns the replacing
    UTF-8 reading and logs the warning of line 190. *)
Theorem read_file_first_encoding (path : string) (h : host) (f : file_node) :
  files h !! path = Some f -> readable f = true ->
  (forall before enc rest text,
     [utf_8; gbk; gb2312; gb18030; latin1] = before ++ enc :: rest ->
     (forall e, In e before -> decode_as e (data f) = None) ->
     decode_as enc (data f) = Some text ->
     read_file decode_as decode_replace path h = (Ok text, [])) /\
  ((forall e, decode_as e (data f) = None) ->
   read_file decode_as decode_replace path h =
     (Ok (decode_replace (data f)), [WarnReplaced path])).
Proof.
  intros Hf Hr. destruct (try_encodings_readable encodings path h f Hf Hr) as [Hfirst Hnone].
  split.
  - intros before enc rest text Hsplit Hbefore Henc. unfold read_file.
    by rewrite (Hfirst before enc rest text Hsplit Hbefore Henc).
  - intros Hall. unfold read_file. rewrite Hnone by auto. by rewrite Hf, Hr.
Qed.

(** X14: with a latin1 decoder that decodes every byte string, as the real
    one does, [read_file] on a file that opens always returns a text read
    under one of the five encodings and never logs: the replacing reader of
    lines 188-191 is never used.  A file that only latin1 decodes comes back
    in its latin1 reading. *)
Theorem read_file_never_replaces (path : string) (h : host) (f : file_node) :
  (forall bytes, is_Some (decode_as latin1 bytes)) ->
  files h !! path = Some f -> readable f = true ->
  (exists enc text,
     In enc encodings /\ decode_as enc (data f) = Some text /\
     read_file decode_as decode_replace path h = (Ok text, [])) /\
  (decode_as utf_8 (data f) = None -> decode_as gbk (data f) = None ->
   decode_as gb2312 (data f) = None -> decode_as gb18030 (data f) = None ->
   exists text, decode_as latin1 (data f) = Some text /\
     read_file decode_as decode_replace path h = (Ok text, [])).
Proof.
  intros Htotal Hf Hr. destruct (Htotal (data f)) as [t5 H5].
  pose proof (read_file_first_encoding_aux path h f Hf Hr) as Hfirst.
  destruct (decode_as utf_8 (data f)) as [t1|] eqn:H1.
  { split; [|done]. exists utf_8, t1. split; [by left|]. split; [done|].
    apply (Hfirst [] utf_8 _ t1 eq_refl); [by intros ? []|done]. }
  destruct (decode_as gbk (data f)) as [t2|] eqn:H2.
  { split; [|done]. exists gbk, t2. split; [right; by left|]. split; [done|].
    apply (Hfirst [utf_8] gbk _ t2 eq_refl); [|done]. by intros ? [<-|[]]. }
  destruct (decode_as gb2312 (data f)) as [t3|] eqn:H3.
  { split; [|done]. exists gb2312, t3. split; [right; right; by left|]. split; [done|].
    apply (Hfirst [utf_8; gbk] gb2312 _ t3 eq_refl); [|done].
    by intros ? [<-|[<-|[]]]. }
  destruct (decode_as gb18030 (data f)) as [t4|] eqn:H4.
  { split; [|done]. exists gb18030, t4.
    split; [right; right; right; by left|]. split; [done|].
    apply (Hfirst [utf_8; gbk; gb2312] gb18030 _ t4 eq_refl); [|done].
    by intros ? [<-|[<-|[<-|[]]]]. }
  assert (read_file decode_as decode_replace path h = (Ok t5, [])) as Hlast.
  { apply (Hfirst [utf_8; gbk; gb2312; gb18030] latin1 [] t5 eq_refl); [|done].
    by intros ? [<-|[<-|[<-|[<-|[]]]]]. }
  split; [|intros _ _ _ _; by exists t5].
  exists latin1, t5. split; [|done]. right; right; right; right; by left.
Qed.

End HelperProperties.

Section HelperWrites.

Variable decode_as : encoding -> list byte -> option string.
Variable decode_replace : list byte -> string.
Variable encode : string -> list byte.

(** X15: [write_file] keeps a refused open to itself.  When the host does
    not let it open the path for writing, because the file is not writable
    or the path is a directory, [write_file] lets no exception out, leaves
    the host exactly as it is, and logs the one error record of line 201
    with the error of the open. *)
Theorem write_file_open_refused (path content : string) (h : host) :
  (forall f, files h !! path = Some f -> writable f = false ->
     write_file encode path content h = (h, [ErrorWrite path (PermissionError path)])) /\
  (files h !! path = None -> path_isdir h path = true ->
     write_file encode path content h = (h, [ErrorWrite path (IsADirectoryError path)])).
Proof.
  unfold write_file, open_write. split.
  - intros f Hf Hw. by rewrite Hf, Hw.
  - intros Hf Hd. by rewrite Hf, Hd.
Qed.

(** X16: what [write_file] wrote, [read_file] reads.  After [write_file]
    on a file that the host lets read and write, [read_file] returns the
    content written and logs nothing, provided the UTF-8 reader decodes the
    bytes written to that content; [read_file] tries UTF-8 first, so no
    other encoding is consulted. *)
Theorem write_then_read (path content : string) (h : host) (f : file_node) :
  files h !! path = Some f ->
  readable f = true -> writable f = true ->
  decode_as utf_8 (encode content) = Some content ->
  snd (write_file encode path content h) = [] /\
  read_file decode_as decode_replace path (fst (write_file encode path content h)) =
    (Ok content, []).
Proof.
  intros Hf Hr Hw Hback. unfold write_file, open_write. rewrite Hf, Hw.
  cbn [fst snd]. split; [done|].
  apply (read_file_first_encoding_aux decode_as decode_replace path _
           (FileNode (encode content) (readable f) true (removable f)))
    with (before := []) (enc := utf_8) (rest := [gbk; gb2312; gb18030; latin1]).
  - cbn [set_files files]. by rewrite lookup_insert_eq.
  - done.
  - done.
  - by intros ? [].
  - done.
Qed.

End HelperWrites.

(** ** The further properties on the example hosts *)

Lemma process_file_io_failure_witness :
  exists e,
    process_file ascii_decode utf8_encode (Some "/w") work_host =
      (Ok tt, add_log (ERROR, UnhandledProcessing "/w" e) work_host) /\
    files (after (process_file ascii_decode utf8_encode (Some "/w")) work_host) =
      files work_host /\
    e = IsADirectoryError "/w".
Proof.
  apply (process_file_io_failure ascii_decode utf8_encode "/w" work_host).
  - discriminate.
  - vm_compute. reflexivity.
  - left. vm_compute. reflexivity.
Defined.

Lemma process_file_stores_fixed_point_witness :
  content (after (process_file ascii_decode utf8_encode (Some "/w/deck.k")) work_host)
    "/w/deck.k" = Some (utf8_encode (rewrite_text deck_text)) /\
  rewrite_text (rewrite_text deck_text) = rewrite_text deck_text.
Proof.
  destruct (process_file_stores_fixed_point ascii_decode utf8_encode "/w/deck.k" work_host
              (FileNode (list_byte_of_string deck_text) true true true) deck_text)
    as (Hcontent & _ & _ & Hfix & _).
  - discriminate.
  - vm_compute. reflexivity.
  - reflexivity.
  - reflexivity.
  - vm_compute. reflexivity.
  - split; [exact Hcontent|exact Hfix].
Defined.

Lemma process_file_extremes_witness :
  content (after (process_file ascii_decode utf8_encode (Some "/w/readme.txt")) work_host)
    "/w/readme.txt" = Some (utf8_encode "hi") /\
  log (after (process_file ascii_decode utf8_encode (Some "/w/readme.txt")) work_host) =
    log work_host ++ [(INFO, ProcessedFile "/w/readme.txt" 0)].
Proof.
  destruct (process_file_extremes ascii_decode utf8_encode "/w/readme.txt" work_host
              (FileNode [x68; x69] true true true) "hi") as [Hnone _].
  - discriminate.
  - vm_compute. reflexivity.
  - reflexivity.
  - reflexivity.
  - vm_compute. reflexivity.
  - apply Hnone. repeat constructor.
Defined.

Lemma second_rewrite_is_noop_witness :
  files (after (process_file ascii_decode utf8_encode (Some "/w/deck.k"))
           (after (process_file ascii_decode utf8_encode (Some "/w/deck.k")) work_host)) =
    files (after (process_file ascii_decode utf8_encode (Some "/w/deck.k")) work_host).
Proof.
  apply (second_rewrite_is_noop ascii_decode utf8_encode "/w/deck.k" work_host
           (FileNode (list_byte_of_string deck_text) true true true) deck_text).
  - discriminate.
  - vm_compute. reflexivity.
  - reflexivity.
  - reflexivity.
  - vm_compute. reflexivity.
  - vm_compute. reflexivity.
Defined.


Lemma idle_pass_witness :
  remove_lines_in_files ascii_decode utf8_encode (Some "/n") true notes_host =
    (Ok tt, add_stdout "All .key files have been processed." notes_host).
Proof.
  apply (idle_pass ascii_decode utf8_encode "/n" true notes_host).
  - vm_compute. reflexivity.
  - intros root names file Hin Hfile. vm_compute in Hin.
    destruct Hin as [Hin|[Hin|[]]]; injection Hin as <- <-.
    + repeat (destruct Hfile as [<-|Hfile]; [reflexivity|]). destruct Hfile.
    + destruct Hfile.
Defined.

Lemma junk_gone_after_pass_witness :
  files (after (remove_lines_in_files ascii_decode utf8_encode (Some "/r") false)
           results_host) !! "/r/d3dump01" = None.
Proof.
  destruct (junk_gone_after_pass ascii_decode utf8_encode "/r" false results_host
              "/r" ["d3dump01"; "model.hm"] "d3dump01") as [_ Hgone].
  - vm_compute. reflexivity.
  - vm_compute. by left.
  - by left.
  - reflexivity.
  - apply (Hgone (FileNode [x00] true true true)).
    + vm_compute. reflexivity.
    + reflexivity.
Defined.

Lemma read_file_first_encoding_witness :
  read_file example_decode_as example_decode_replace "/w/bad.key" work_host =
    (Ok (String (ascii_of_N 255) nl), []).
Proof.
  destruct (read_file_first_encoding example_decode_as example_decode_replace
              "/w/bad.key" work_host (FileNode [xff; x0a] true true true))
    as [Hfirst _].
  - vm_compute. reflexivity.
  - reflexivity.
  - apply (Hfirst [utf_8; gbk; gb2312; gb18030] latin1 []).
    + reflexivity.
    + intros e [<-|[<-|[<-|[<-|[]]]]]; reflexivity.
    + reflexivity.
Defined.

Lemma read_file_never_replaces_witness :
  exists text,
    example_decode_as latin1 [xff; x0a] = Some text /\
    read_file example_decode_as example_decode_replace "/w/bad.key" work_host =
      (Ok text, []).
Proof.
  destruct (read_file_never_replaces example_decode_as example_decode_replace
              "/w/bad.key" work_host (FileNode [xff; x0a] true true true))
    as [_ Hlatin].
  - intros bytes. by eexists.
  - vm_compute. reflexivity.
  - reflexivity.
  - apply Hlatin; reflexivity.
Defined.

Lemma write_file_open_refused_witness :
  write_file utf8_encode "/d/notes.txt" "*END" run_host =
    (run_host, [ErrorWrite "/d/notes.txt" (PermissionError "/d/notes.txt")]) /\
  write_file utf8_encode "/d" "*END" run_host =
    (run_host, [ErrorWrite "/d" (IsADirectoryError "/d")]).
Proof.
  destruct (write_file_open_refused utf8_encode "/d/notes.txt" "*END" run_host) as [Hfile _].
  destruct (write_file_open_refused utf8_encode "/d" "*END" run_host) as [_ Hdir].
  split.
  - apply (Hfile (FileNode [x68; x69] true false true)); [vm_compute|]; reflexivity.
  - apply Hdir; vm_compute; reflexivity.
Defined.

Lemma write_then_read_witness :
  read_file example_decode_as example_decode_replace "/w/readme.txt"
    (fst (write_file utf8_encode "/w/readme.txt" "hello" work_host)) = (Ok "hello", []).
Proof.
  apply (write_then_read example_decode_as example_decode_replace utf8_encode
           "/w/readme.txt" "hello" work_host (FileNode [x68; x69] true true true)).
  - vm_compute. reflexivity.
  - reflexivity.
  - reflexivity.
  - vm_compute. reflexivity.
Defined.
